(** * EcoStock: a shallow embedding of [app.py]

    The script loads an inventory table, fits a linear demand model,
    predicts the weekly demand of every row, tags every row with a risk
    level, and offers two handlers that rewrite the CSV store (append a
    row, delete the rows matching a selected row).

    Conventions of the embedding:
    - a pandas [DataFrame] is the list of its rows, in index order;
    - [float64] values are Rocq's primitive binary64 floats, so that every
      comparison and product is the one NumPy performs;
    - [int64] columns are [Z];
    - timestamps ([datetime64[ns]], [datetime.today()]) are nanoseconds
      since the epoch, in [Z];
    - the file [mock_inventory.csv] is the table it denotes (or [None] when
      the file does not exist); [pd.read_csv] and [DataFrame.to_csv] read
      and replace that table;
    - code that touches the file or the session runs in the monad [App],
      which threads the [World] and may raise a Python exception;
    - every cell of a row holds a value (no NaN or NaT from an empty
      cell); only [WeeklySales] may hold text instead of a number. *)

From Stdlib Require Import ZArith List String Ascii Bool Lia Floats.
From Stdlib Require Import Permutation Sorted OrderedTypeEx.
Import ListNotations.

Set Warnings "-inexact-float".

Local Open Scope string_scope.
Local Open Scope list_scope.
Local Open Scope Z_scope.

(** ** float64 helpers (NumPy semantics) *)

Module F64.

(** The cast of an [int64] to [float64]: the nearest double, ties to even. *)
Definition of_Z (z : Z) : float :=
  SF2Prim (binary_normalize prec emax z 0 false).

Definition two52 : float := 4503599627370496%float.

(** [np.rint]: round to the nearest integer, ties to even.  Below [2^52]
    adding and removing [2^52] rounds at the unit position. *)
Definition rint (x : float) : float :=
  if (abs x <? two52)%float then
    if (0 <? x)%float then ((x + two52) - two52)%float
    else if (x <? 0)%float then (- (((- x) + two52) - two52))%float
    else x
  else x.

(** [ndarray.round(2)]: scale by [10^2], [rint], scale back. *)
Definition round2 (x : float) : float := (rint (x * 100) / 100)%float.

(** Neither NaN nor an infinity. *)
Definition finite (x : float) : bool := is_finite x.


End F64.

(** ** Timestamps *)

Definition Timestamp := Z.

Definition day_ns : Z := 86400000000000.

(** [Timestamp.normalize()]: midnight of the same day. *)
Definition normalize (t : Timestamp) : Timestamp := t - t mod day_ns.

(** [Timedelta.days]: whole days, rounded towards minus infinity. *)
Definition days (td : Z) : Z := td / day_ns.

(** The calendar date of an instant, in days since the epoch. *)
Definition date_of (t : Timestamp) : Z := t / day_ns.

(** ** Data model *)

(** A [WeeklySales] cell as [read_csv] delivers it: a number, or text when
    the column could not be parsed as numbers. *)
Inductive cell : Type :=
| Numeric (x : float)
| Text (s : string).

(** One row of the store: the eight persisted columns. *)
Record InventoryRecord : Type := mkRecord {
  Product : string;
  Category : string;
  StockQty : Z;
  WeeklySales : cell;
  ExpiryDate : Timestamp;
  StoreID : string;
  Weather : string;
  HolidayFlag : Z
}.

(** Rows of the data frame as the pipeline adds its derived columns. *)
Record Loaded : Type := mkLoaded {
  record :> InventoryRecord;
  DaysToExpire : Z
}.

Record Predicted : Type := mkPredicted {
  loaded :> Loaded;
  PredictedDemand : float
}.

Record Annotated : Type := mkAnnotated {
  predicted :> Predicted;
  RiskLevel : string
}.

(** ** Exceptions and the application monad *)

Inductive exn : Type :=
| FileNotFoundError
| KeyError
| ValueError (msg : string).

Inductive result (A : Type) : Type :=
| Ok (a : A)
| Err (e : exn).

Arguments Ok {A} a.
Arguments Err {A} e.

(** What a run can read and write: the CSV store and the Streamlit
    session. *)
Record World : Type := mkWorld {
  mock_inventory_csv : option (list InventoryRecord);
  manual_data : list InventoryRecord;
  show_delete : bool
}.

Definition App (A : Type) : Type := World -> result A * World.

Definition ret {A} (a : A) : App A := fun w => (Ok a, w).

Definition raise {A} (e : exn) : App A := fun w => (Err e, w).

Definition bind {A B} (c : App A) (k : A -> App B) : App B :=
  fun w =>
    match c w with
    | (Ok a, w') => k a w'
    | (Err e, w') => (Err e, w')
    end.

Definition try_except {A} (c : App A) (handler : exn -> App A) : App A :=
  fun w =>
    match c w with
    | (Ok a, w') => (Ok a, w')
    | (Err e, w') => handler e w'
    end.

Definition lift {A} (r : result A) : App A := fun w => (r, w).

Notation "x <- c ;; k" := (bind c (fun x => k))
  (at level 61, c at next level, right associativity).

(** [pd.read_csv("mock_inventory.csv")] *)
Definition read_csv : App (list InventoryRecord) :=
  fun w =>
    match mock_inventory_csv w with
    | Some table => (Ok table, w)
    | None => (Err FileNotFoundError, w)
    end.

(** [df.to_csv("mock_inventory.csv", index=False)] *)
Definition to_csv (table : list InventoryRecord) : App unit :=
  fun w =>
    (Ok tt, {| mock_inventory_csv := Some table;
               manual_data := manual_data w;
               show_delete := show_delete w |}).

Definition get_manual_data : App (list InventoryRecord) :=
  fun w => (Ok (manual_data w), w).

Definition set_show_delete (b : bool) : App unit :=
  fun w =>
    (Ok tt, {| mock_inventory_csv := mock_inventory_csv w;
               manual_data := manual_data w;
               show_delete := b |}).

(** ** [load_data] *)

(** The two lines that add the [DaysToExpire] column. *)
Definition with_days (today : Timestamp) (df : list InventoryRecord) : list Loaded :=
  map (fun r => {| record := r; DaysToExpire := days (ExpiryDate r - today) |}) df.

Definition load_data (uploaded_file : option (list InventoryRecord))
    (today : Timestamp) : App (list Loaded) :=
  df <- match uploaded_file with
        | Some table => ret table
        | None => read_csv
        end ;;
  ret (with_days today df).

(** ** [train_model]: one-hot encoding and linear regression *)

(** [OneHotEncoder.categories_] of one column: its distinct values, sorted. *)
Fixpoint insert_sorted (s : string) (l : list string) : list string :=
  match l with
  | [] => [s]
  | x :: t =>
      match String.compare s x with
      | Lt => s :: l
      | Eq => l
      | Gt => x :: insert_sorted s t
      end
  end.

Definition np_unique_sorted (l : list string) : list string :=
  fold_right insert_sorted [] l.

Record Encoder : Type := mkEncoder {
  categories_Category : list string;
  categories_StoreID : list string;
  categories_Weather : list string
}.

Record Model : Type := mkModel {
  preprocessor : Encoder;
  coef_ : list float;
  intercept_ : float
}.

(** The indicator columns of one value; a value outside [categories] sets
    none of them ([handle_unknown='ignore']). *)
Definition one_hot (categories : list string) (v : string) : list float :=
  map (fun c => if String.eqb c v then 1%float else 0%float) categories.

(** [ColumnTransformer.transform]: the encoded columns, then the
    passed-through [HolidayFlag]. *)
Definition transform (enc : Encoder) (r : InventoryRecord) : list float :=
  one_hot (categories_Category enc) (Category r)
  ++ one_hot (categories_StoreID enc) (StoreID r)
  ++ one_hot (categories_Weather enc) (Weather r)
  ++ [F64.of_Z (HolidayFlag r)].


(** The product of one encoded row with the coefficients, accumulated
    from [0] in column order. *)
Definition dot (x coef : list float) : float :=
  fold_left (fun acc xc => (acc + fst xc * snd xc)%float) (combine x coef) 0%float.

(** [LinearRegression.predict] behind the pipeline's transform. *)
Definition predict (model : Model) (r : InventoryRecord) : float :=
  (dot (transform (preprocessor model) r) (coef_ model) + intercept_ model)%float.

Definition fit_encoder (df : list Loaded) : Encoder :=
  {| categories_Category := np_unique_sorted (map (fun r : Loaded => Category r) df);
     categories_StoreID := np_unique_sorted (map (fun r : Loaded => StoreID r) df);
     categories_Weather := np_unique_sorted (map (fun r : Loaded => Weather r) df) |}.

(** The target column as the regressor validates it: every cell must be a
    number, and a finite one. *)
Fixpoint numeric_target (df : list Loaded) : result (list float) :=
  match df with
  | [] => Ok []
  | r :: t =>
      match WeeklySales r with
      | Text s => Err (ValueError (String.append "could not convert string to float: " s))
      | Numeric y =>
          if F64.finite y then
            match numeric_target t with
            | Ok ys => Ok (y :: ys)
            | Err e => Err e
            end
          else Err (ValueError "Input y contains NaN or infinity")
      end
  end.

Section Pipeline.

(** The least-squares solver behind [LinearRegression.fit] (LAPACK): from
    the design matrix and the targets to the coefficients and the
    intercept. *)
Variable lstsq : list (list float) -> list float -> list float * float.

(** [model.fit(X, y)].  Before it solves, scikit-learn validates its
    input and raises a [ValueError] on a table without rows and on a
    target that is not numeric and finite; the source adds no guard of
    its own. *)
Definition train_model (df : list Loaded) : result Model :=
  match df with
  | [] => Err (ValueError "Found array with 0 sample(s) while a minimum of 1 is required")
  | _ :: _ =>
      match numeric_target df with
      | Err e => Err e
      | Ok y =>
          let enc := fit_encoder df in
          let X := map (fun r : Loaded => transform enc r) df in
          let '(coef, intercept) := lstsq X y in
          Ok {| preprocessor := enc; coef_ := coef; intercept_ := intercept |}
      end
  end.

(** ** [apply_predictions] *)

Definition apply_predictions (df : list Loaded) (model : Model) : list Predicted :=
  map (fun r : Loaded =>
         {| loaded := r; PredictedDemand := F64.round2 (predict model r) |}) df.

(** ** [classify_risk] *)

(** [np.select] at one position: the choice of the first condition that
    holds, else the default. *)
Fixpoint np_select (conditions : list bool) (choices : list string)
    (default : string) : string :=
  match conditions, choices with
  | c :: cs, v :: vs => if c then v else np_select cs vs default
  | _, _ => default
  end.

(** [df['PredictedDemand'] < k * df['StockQty']] at one row: the integer
    stock is cast to [float64] and the product is rounded. *)
Definition demand_below (k : float) (r : Predicted) : bool :=
  (PredictedDemand r <? k * F64.of_Z (StockQty r))%float.

Definition conditions (r : Predicted) : list bool :=
  [ demand_below 0.7 r && (DaysToExpire r <? 5);
    demand_below 0.9 r || ((5 <=? DaysToExpire r) && (DaysToExpire r <? 8)) ].

Definition choices : list string := ["HIGH"; "MEDIUM"].

Definition classify_risk (df : list Predicted) : list Annotated :=
  map (fun r => {| predicted := r;
                   RiskLevel := np_select (conditions r) choices "LOW" |}) df.

(** ** Load and process (lines 90 to 98)

    [datetime.today()] is read twice, once inside [load_data] and once for
    the staged rows. *)
Definition process (uploaded_file : option (list InventoryRecord))
    (today today' : Timestamp) : App (list Annotated) :=
  df <- load_data uploaded_file today ;;
  manual <- get_manual_data ;;
  let df := match manual with
            | [] => df
            | _ :: _ => df ++ with_days today' manual
            end in
  model <- lift (train_model df) ;;
  let df := apply_predictions df model in
  ret (classify_risk df).

(** ** Category filter and at-risk table (lines 147 to 149) *)


Definition isin (v : string) (values : list string) : bool :=
  existsb (String.eqb v) values.

Definition filtered_df (df : list Annotated) (selected_category : list string)
    : list Annotated :=
  match selected_category with
  | [] => df
  | _ :: _ => filter (fun r : Annotated => isin (Category r) selected_category) df
  end.

(** The order of [sort_values(by=['RiskLevel', 'DaysToExpire'])]: labels
    as strings, then days. *)
Definition sort_key_leb (a b : Annotated) : bool :=
  match String.compare (RiskLevel a) (RiskLevel b) with
  | Lt => true
  | Gt => false
  | Eq => DaysToExpire a <=? DaysToExpire b
  end.

Fixpoint insert_by (x : Annotated) (l : list Annotated) : list Annotated :=
  match l with
  | [] => [x]
  | y :: t => if sort_key_leb x y then x :: l else y :: insert_by x t
  end.

(** A stable sort: each row goes in front of the first later row that is
    not smaller. *)
Definition sort_values (df : list Annotated) : list Annotated :=
  fold_right insert_by [] df.

Definition at_risk (filtered : list Annotated) : list Annotated :=
  sort_values (filter (fun r => isin (RiskLevel r) ["HIGH"; "MEDIUM"]) filtered).

(** One render of the page up to the tables: process, filter, sort. *)
Definition pipeline_run (uploaded_file : option (list InventoryRecord))
    (today today' : Timestamp) (selected_category : list string)
    : App (list Annotated * list Annotated) :=
  df <- process uploaded_file today today' ;;
  let filtered := filtered_df df selected_category in
  ret (filtered, at_risk filtered).

End Pipeline.

(** ** The form handler (lines 115 to 140) *)

Record FormInput : Type := mkForm {
  product : string;
  category : string;
  stock_qty : Z;
  weekly_sales : float;
  expiry_date : Z;          (* a [datetime.date], in days since the epoch *)
  store_id : string;
  weather : string;
  holiday_flag : Z
}.

(** The row the form writes; its date is stored without a time of day. *)
Definition new_entry (f : FormInput) : InventoryRecord :=
  {| Product := product f;
     Category := category f;
     StockQty := stock_qty f;
     WeeklySales := Numeric (weekly_sales f);
     ExpiryDate := expiry_date f * day_ns;
     StoreID := store_id f;
     Weather := weather f;
     HolidayFlag := holiday_flag f |}.

Definition add_item (f : FormInput) : App unit :=
  df_existing <- try_except read_csv
                   (fun e => match e with
                             | FileNotFoundError => ret []
                             | _ => raise e
                             end) ;;
  let df_updated := df_existing ++ [new_entry f] in
  to_csv df_updated.

(** ** The delete handler (lines 206 to 230) *)

Inductive feedback : Type :=
| st_success
| st_error (e : exn).

(** The boolean mask [condition] of the handler, at one row of the store. *)
Definition condition (row r : InventoryRecord) : bool :=
  String.eqb (Product r) (Product row)
  && String.eqb (Category r) (Category row)
  && String.eqb (StoreID r) (StoreID row)
  && (normalize (ExpiryDate r) =? normalize (ExpiryDate row)).

(** [full_df[~condition]]: the store without the rows the mask selects. *)
Definition delete_matching (row : InventoryRecord) (full_df : list InventoryRecord)
    : list InventoryRecord :=
  filter (fun r => negb (condition row r)) full_df.

Definition confirm_delete (filtered : list Annotated) (selected_idx : nat)
    : App feedback :=
  try_except
    (full_df <- read_csv ;;
     row <- match nth_error filtered selected_idx with
            | Some row => ret row
            | None => raise KeyError
            end ;;
     let updated_df := delete_matching row full_df in
     _ <- to_csv updated_df ;;
     _ <- set_show_delete false ;;
     ret st_success)
    (fun e => ret (st_error e)).

(** The identity tuple of a row. *)
Definition identity (r : InventoryRecord) : string * string * string * Timestamp :=
  (Product r, Category r, StoreID r, normalize (ExpiryDate r)).

(** ** KPIs (lines 153 to 161) *)

Definition total_products (filtered : list Annotated) : nat := List.length filtered.

(** [(filtered_df['RiskLevel'] == level).sum()] *)
Definition risk_count (level : string) (filtered : list Annotated) : nat :=
  List.length (filter (fun r : Annotated => String.eqb (RiskLevel r) level) filtered).

(** ** The high-risk table (line 234) *)

Definition high_risk_items (at_risk : list Annotated) : list Annotated :=
  filter (fun r : Annotated => String.eqb (RiskLevel r) "HIGH") at_risk.

(** ** The suggestion cards (lines 245 to 274) *)

(** Python's [range(start, stop, step)] for a positive step. *)
Fixpoint range_from (fuel start stop step : nat) : list nat :=
  match fuel with
  | O => []
  | S fuel' =>
      if (start <? stop)%nat then start :: range_from fuel' (start + step) stop step
      else []
  end.

Definition range (start stop step : nat) : list nat :=
  range_from stop start stop step.

(** [df.iloc[i:j]] *)
Definition iloc {A} (df : list A) (i j : nat) : list A :=
  firstn (j - i) (skipn i df).

(** [{...}.get(key, default)] *)
Fixpoint dict_get (d : list (string * string)) (key default : string) : string :=
  match d with
  | [] => default
  | (k, v) :: t => if String.eqb k key then v else dict_get t key default
  end.

Definition risk_class (level : string) : string :=
  dict_get [("HIGH", "risk-high"); ("MEDIUM", "risk-medium"); ("LOW", "risk-low")]
           level "risk-low".

(** One card: the page column it is drawn in, its row, its CSS class. *)
Record Card : Type := mkCard {
  card_col : nat;
  card_row : Annotated;
  card_class : string
}.

Inductive suggestions_view : Type :=
| cards (rows : list (list Card))
| st_info_no_suggestions.

(** The rows of at-risk items are cut in chunks of three, and each chunk
    is zipped with the three page columns. *)
Definition suggestions (at_risk : list Annotated) : suggestions_view :=
  match at_risk with
  | [] => st_info_no_suggestions
  | _ :: _ =>
      cards
        (map (fun i =>
                let row_data := iloc at_risk i (i + 3) in
                map (fun cr : nat * Annotated =>
                       {| card_col := fst cr; card_row := snd cr;
                          card_class := risk_class (RiskLevel (snd cr)) |})
                    (combine (seq 0 3) row_data))
             (range 0 (List.length at_risk) 3))
  end.

(** ** The labels of the delete selector (lines 193 to 197) *)

Section Labels.

(** [str] of a [datetime.date], from its number of days since the epoch. *)
Variable isoformat : Z -> string.

Definition Label (x : InventoryRecord) : string :=
  String.append (Product x)
    (String.append " ("
       (String.append (Category x)
          (String.append ") - "
             (String.append (StoreID x)
                (String.append " | Exp: " (isoformat (date_of (ExpiryDate x)))))))).

End Labels.

(** ** Sample rows used by the examples *)

Definition sample_record (name cat store : string) (stock : Z) (sales : float)
    (expiry_day : Z) : InventoryRecord :=
  {| Product := name; Category := cat; StockQty := stock;
     WeeklySales := Numeric sales; ExpiryDate := expiry_day * day_ns;
     StoreID := store; Weather := "Sunny"; HolidayFlag := 0 |}.

Definition sample_row (name cat : string) (demand : float) (stock days_left : Z)
    : Predicted :=
  {| loaded := {| record := sample_record name cat "S01" stock 50 20000;
                  DaysToExpire := days_left |};
     PredictedDemand := demand |}.

Definition sample_store : list InventoryRecord :=
  [ sample_record "Milk" "Dairy" "S01" 100 50 20000;
    sample_record "Bread" "Bakery" "S02" 40 30 20003;
    sample_record "Milk" "Dairy" "S01" 10 5 20000 ].

Definition sample_world : World :=
  {| mock_inventory_csv := Some sample_store; manual_data := []; show_delete := true |}.

Definition sample_selected : Annotated :=
  {| predicted := sample_row "Milk" "Dairy" 65 100 3; RiskLevel := "HIGH" |}.


(** The fit on a table whose encoded rows are all equal (one row, for
    instance): the centred design is zero, so the minimum-norm
    least-squares coefficients are zero and the intercept is the mean of
    the targets. *)
Definition constant_design_solver (X : list (list float)) (y : list float)
    : list float * float :=
  (repeat 0%float (List.length (hd [] X)),
   (fold_left PrimFloat.add y 0 / F64.of_Z (Z.of_nat (List.length y)))%float).

Definition sample_model : Model :=
  {| preprocessor := {| categories_Category := ["Bakery"; "Dairy"];
                        categories_StoreID := ["S01"];
                        categories_Weather := ["Rainy"; "Sunny"] |};
     coef_ := [1.5; -2; 0.25; 4; -4; 3]%float;
     intercept_ := 10%float |}.



(** A store with one row that expires five days after day 20000, and two
    clock readings on day 20000: midnight, and one hour later. *)
Definition midnight_store : World :=
  {| mock_inventory_csv := Some [sample_record "Milk" "Dairy" "S01" 100 50 20005];
     manual_data := []; show_delete := false |}.

Definition midnight : Timestamp := 20000 * day_ns.

Definition one_o_clock : Timestamp := 20000 * day_ns + 3600000000000.

(** ** Auxiliary definitions for the float64 proofs

    [binary_round_aux], the rounding step of every [SpecFloat] operation,
    is described on a positive mantissa by [round_pos]. *)

(** [m / 2^n] rounded to nearest, ties to even. *)
Definition rne_shift (m n : Z) : Z :=
  let q := m / 2 ^ n in
  let r := m mod 2 ^ n in
  let h := 2 ^ (n - 1) in
  if r <? h then q
  else if h <? r then q + 1
  else if Z.even q then q else q + 1.

(** Mantissa and exponent after rounding [m * 2^e] to binary64. *)
Definition round_pos (m : positive) (e : Z) : Z * Z :=
  let n := Z.max (Zpos (digits2_pos m) - prec) (emin - e) in
  if n <=? 0 then (Zpos m, e)
  else
    let q := rne_shift (Zpos m) n in
    if q =? 2 ^ prec then (2 ^ (prec - 1), e + n + 1) else (q, e + n).

Definition finish (sx : bool) (me : Z * Z) : spec_float :=
  match fst me with
  | Z0 => S754_zero sx
  | Zpos m =>
      if snd me <=? emax - prec then S754_finite sx m (snd me) else S754_infinity sx
  | Zneg _ => S754_nan
  end.

(** The shift register of [shr] after [k >= 1] one-bit shifts of [m]. *)
Definition shifted (m k : Z) : shr_record :=
  {| shr_m := m / 2 ^ k;
     shr_r := 2 ^ (k - 1) <=? m mod 2 ^ k;
     shr_s := negb ((m mod 2 ^ k =? 0) || (m mod 2 ^ k =? 2 ^ (k - 1))) |}.

(** The numerical order of two rounded results. *)
Definition res_le (r1 r2 : Z * Z) : Prop :=
  fst r1 = 0 \/
  (0 < fst r1 /\ 0 < fst r2 /\
   (snd r1 < snd r2 \/ (snd r1 = snd r2 /\ fst r1 <= fst r2))).

Definition sf_nonneg (x : spec_float) : Prop :=
  match x with
  | S754_zero _ | S754_infinity false | S754_finite false _ _ => True
  | _ => False
  end.


(** The order the at-risk table is specified to have: a HIGH row before
    a MEDIUM row, and within one level the row with fewer days first. *)
Definition tier_then_days (a b : Annotated) : Prop :=
  (RiskLevel a = "HIGH" /\ RiskLevel b = "MEDIUM") \/
  (RiskLevel a = RiskLevel b /\ DaysToExpire a <= DaysToExpire b).

(** A computation that leaves the world as it found it, whatever it
    returns or raises. *)
Definition read_only {A} (c : App A) : Prop := forall w, snd (c w) = w.

(** What the claims observe of a run: the predicted demands, and the
    demands with the labels. *)
Definition demands (r : result (list Annotated)) : option (list float) :=
  match r with
  | Ok df => Some (map (fun a : Annotated => PredictedDemand a) df)
  | Err _ => None
  end.

Definition outputs (r : result (list Annotated)) : option (list (float * string)) :=
  match r with
  | Ok df => Some (map (fun a : Annotated => (PredictedDemand a, RiskLevel a)) df)
  | Err _ => None
  end.

(** An expiry date without a time of day. *)
Definition date_only (r : InventoryRecord) : Prop :=
  normalize (ExpiryDate r) = ExpiryDate r.

(** The rows [load_data] reads: the upload when there is one, else the
    store. *)
Definition source_rows (uploaded_file : option (list InventoryRecord)) (w : World)
    : option (list InventoryRecord) :=
  match uploaded_file with
  | Some table => Some table
  | None => mock_inventory_csv w
  end.

(** The frame that reaches [train_model]. *)
Definition combined_frame (uploaded_file : option (list InventoryRecord))
    (today today' : Timestamp) (w : World) : option (list Loaded) :=
  match source_rows uploaded_file w with
  | Some rows => Some (with_days today rows ++ with_days today' (manual_data w))
  | None => None
  end.

(** The levels in order of severity. *)
Definition risk_rank (level : string) : nat :=
  if String.eqb level "HIGH" then 2
  else if String.eqb level "MEDIUM" then 1
  else 0.

(** An indicator block of width [n] with its single one at position [i]. *)
Definition indicator (n i : nat) : list float :=
  repeat 0%float i ++ 1%float :: repeat 0%float (n - S i).


(** The columns [train_model] and [apply_predictions] select:
    [df[['Category', 'StoreID', 'Weather', 'HolidayFlag']]], and the target
    [df['WeeklySales']]. *)
Definition features (r : InventoryRecord) : string * string * string * Z :=
  (Category r, StoreID r, Weather r, HolidayFlag r).

(** * Properties *)

(** ** binary64 rounding *)


Lemma digits2_pos_bounds (m : positive) :
  2 ^ (Zpos (digits2_pos m) - 1) <= Zpos m < 2 ^ Zpos (digits2_pos m).
Proof.
  induction m as [m IH | m IH |]; cbn [digits2_pos].
  - rewrite Pos2Z.inj_succ. change (Zpos m~1) with (2 * Zpos m + 1).
    replace (Z.succ (Zpos (digits2_pos m)) - 1) with (Z.succ (Zpos (digits2_pos m) - 1)) by lia.
    rewrite !Z.pow_succ_r by lia.
    generalize dependent (2 ^ (Zpos (digits2_pos m) - 1)).
    generalize dependent (2 ^ Zpos (digits2_pos m)). intros; lia.
  - rewrite Pos2Z.inj_succ. change (Zpos m~0) with (2 * Zpos m).
    replace (Z.succ (Zpos (digits2_pos m)) - 1) with (Z.succ (Zpos (digits2_pos m) - 1)) by lia.
    rewrite !Z.pow_succ_r by lia.
    generalize dependent (2 ^ (Zpos (digits2_pos m) - 1)).
    generalize dependent (2 ^ Zpos (digits2_pos m)). intros; lia.
  - cbn. lia.
Qed.

Lemma digits2_pos_mono (m1 m2 : positive) :
  (m1 <= m2)%positive -> Zpos (digits2_pos m1) <= Zpos (digits2_pos m2).
Proof.
  intros H.
  destruct (digits2_pos_bounds m1) as [L1 _].
  destruct (digits2_pos_bounds m2) as [_ U2].
  assert (Hlt : 2 ^ (Zpos (digits2_pos m1) - 1) < 2 ^ Zpos (digits2_pos m2)) by lia.
  apply Z.pow_lt_mono_r_iff in Hlt; lia.
Qed.

Lemma iter_pos_nat {A} (f : A -> A) (p : positive) (x : A) :
  iter_pos f p x = Nat.iter (Pos.to_nat p) f x.
Proof.
  revert x; induction p as [p IH | p IH |]; intros x; cbn [iter_pos].
  - rewrite !IH, Pos2Nat.inj_xI.
    replace (S (2 * Pos.to_nat p)) with (Pos.to_nat p + S (Pos.to_nat p))%nat by lia.
    rewrite Nat.iter_add, Nat.iter_succ_r. reflexivity.
  - rewrite !IH, Pos2Nat.inj_xO.
    replace (2 * Pos.to_nat p)%nat with (Pos.to_nat p + Pos.to_nat p)%nat by lia.
    rewrite Nat.iter_add. reflexivity.
  - reflexivity.
Qed.

Lemma shr_1_nonneg (m : Z) (r s : bool) :
  0 <= m ->
  shr_1 {| shr_m := m; shr_r := r; shr_s := s |} =
  {| shr_m := m / 2; shr_r := Z.odd m; shr_s := r || s |}.
Proof.
  intros Hm. rewrite <- Z.div2_div.
  destruct m as [| [p | p |] | p]; try lia; reflexivity.
Qed.

Lemma shifted_step (m k : Z) :
  0 <= m -> 1 <= k -> shr_1 (shifted m k) = shifted m (k + 1).
Proof.
  intros Hm Hk. unfold shifted.
  assert (Hp : 0 < 2 ^ k) by (apply Z.pow_pos_nonneg; lia).
  assert (Hh : 0 < 2 ^ (k - 1)) by (apply Z.pow_pos_nonneg; lia).
  assert (Hk2 : 2 ^ k = 2 * 2 ^ (k - 1)).
  { replace k with (Z.succ (k - 1)) at 1 by lia. rewrite Z.pow_succ_r by lia. reflexivity. }
  rewrite shr_1_nonneg by (apply Z.div_pos; lia).
  replace (k + 1 - 1) with k by lia.
  assert (Hk1 : 2 ^ (k + 1) = 2 * 2 ^ k) by (rewrite Z.add_1_r, Z.pow_succ_r by lia; reflexivity).
  pose proof (Z.div_mod m (2 ^ k) ltac:(lia)) as E1.
  pose proof (Z.mod_pos_bound m (2 ^ k) Hp) as B1.
  set (q := m / 2 ^ k) in *. set (r := m mod 2 ^ k) in *.
  pose proof (Z.div_mod q 2 ltac:(lia)) as E2.
  pose proof (Z.mod_pos_bound q 2 ltac:(lia)) as B2.
  assert (Eq' : m / 2 ^ (k + 1) = q / 2).
  { rewrite Hk1. symmetry. apply Z.div_unique with (r := (q mod 2) * 2 ^ k + r); nia. }
  assert (Er' : m mod 2 ^ (k + 1) = (q mod 2) * 2 ^ k + r).
  { rewrite Hk1. symmetry. apply Z.mod_unique with (q := q / 2); nia. }
  rewrite Eq', Er', Zodd_mod. clear Eq' Er' Hk1.
  clearbody q r. generalize dependent (2 ^ (k - 1)). generalize dependent (2 ^ k).
  intros p Hp E1 B1 h Hh Hk2.
  assert (Hq : q mod 2 = 0 \/ q mod 2 = 1) by lia.
  destruct Hq as [Hq | Hq]; rewrite Hq; f_equal;
    repeat match goal with
           | |- context [?a <=? ?b] => destruct (Z.leb_spec a b)
           | |- context [?a =? ?b] => destruct (Z.eqb_spec a b)
           end; cbn; try reflexivity; exfalso; lia.
Qed.

Lemma iter_shr_1 (m : Z) (k : nat) :
  0 <= m ->
  Nat.iter (S k) shr_1 {| shr_m := m; shr_r := false; shr_s := false |} =
  shifted m (Z.of_nat (S k)).
Proof.
  intros Hm. induction k as [| k IH].
  - cbn [Nat.iter nat_rect]. rewrite shr_1_nonneg by assumption.
    unfold shifted. change (Z.of_nat 1) with 1. change (2 ^ 1) with 2.
    change (2 ^ (1 - 1)) with 1.
    pose proof (Z.mod_pos_bound m 2 ltac:(lia)) as B.
    rewrite Zodd_mod. f_equal.
    + destruct (Z.eqb_spec (m mod 2) 1), (Z.leb_spec 1 (m mod 2)); try reflexivity; lia.
    + destruct (Z.eqb_spec (m mod 2) 0), (Z.eqb_spec (m mod 2) 1); cbn; try reflexivity; lia.
  - rewrite Nat.iter_succ, IH, shifted_step by lia.
    f_equal. lia.
Qed.

Lemma shr_pos (m e n : Z) :
  0 <= m -> 0 < n ->
  shr {| shr_m := m; shr_r := false; shr_s := false |} e n = (shifted m n, e + n).
Proof.
  intros Hm Hn. destruct n as [| p | p]; try lia.
  cbn [shr]. rewrite iter_pos_nat.
  destruct (Pos2Nat.is_succ p) as [k Hk]. rewrite Hk, iter_shr_1 by assumption.
  rewrite <- Hk, positive_nat_Z. reflexivity.
Qed.

Lemma rne_shifted (m n : Z) :
  0 <= m -> 0 < n ->
  round_nearest_even (shr_m (shifted m n)) (loc_of_shr_record (shifted m n)) = rne_shift m n.
Proof.
  intros Hm Hn. unfold shifted, rne_shift. cbn [shr_m loc_of_shr_record].
  assert (Hp : 0 < 2 ^ n) by (apply Z.pow_pos_nonneg; lia).
  assert (Hh : 0 < 2 ^ (n - 1)) by (apply Z.pow_pos_nonneg; lia).
  pose proof (Z.mod_pos_bound m (2 ^ n) Hp) as B1.
  set (q := m / 2 ^ n). set (r := m mod 2 ^ n) in *. set (h := 2 ^ (n - 1)) in *.
  destruct (Z.leb_spec h r), (Z.eqb_spec r 0), (Z.eqb_spec r h), (Z.ltb_spec r h), (Z.ltb_spec h r);
    cbn; try reflexivity; try lia.
Qed.

Lemma shr_nonpos (mrs : shr_record) (e n : Z) : n <= 0 -> shr mrs e n = (mrs, e).
Proof. destruct n; intros; try reflexivity; lia. Qed.

Lemma pow2_split (n : Z) : 0 < n -> 2 ^ n = 2 * 2 ^ (n - 1) /\ 0 < 2 ^ (n - 1).
Proof.
  intros Hn. split.
  - replace n with (Z.succ (n - 1)) at 1 by lia. rewrite Z.pow_succ_r by lia. reflexivity.
  - apply Z.pow_pos_nonneg; lia.
Qed.

Lemma rne_shift_bounds (m n : Z) :
  0 <= m -> 0 < n -> m / 2 ^ n <= rne_shift m n <= m / 2 ^ n + 1.
Proof.
  intros Hm Hn. unfold rne_shift.
  destruct (_ <? _); [lia |]. destruct (_ <? _); [lia |]. destruct (Z.even _); lia.
Qed.

Lemma rne_shift_mono (m1 m2 n : Z) :
  0 <= m1 <= m2 -> 0 < n -> rne_shift m1 n <= rne_shift m2 n.
Proof.
  intros Hm Hn. unfold rne_shift.
  destruct (pow2_split n Hn) as [Hp Hh].
  pose proof (Z.div_mod m1 (2 ^ n) ltac:(lia)) as E1.
  pose proof (Z.mod_pos_bound m1 (2 ^ n) ltac:(lia)) as B1.
  pose proof (Z.div_mod m2 (2 ^ n) ltac:(lia)) as E2.
  pose proof (Z.mod_pos_bound m2 (2 ^ n) ltac:(lia)) as B2.
  pose proof (Z.div_le_mono m1 m2 (2 ^ n) ltac:(lia) ltac:(lia)) as Hq.
  generalize dependent (m1 mod 2 ^ n). generalize dependent (m2 mod 2 ^ n).
  generalize dependent (m1 / 2 ^ n). generalize dependent (m2 / 2 ^ n).
  generalize dependent (2 ^ (n - 1)). generalize dependent (2 ^ n).
  intros p h Hp Hh q2 q1 Hq r2 E2 B2 r1 E1 B1.
  destruct (Z.eq_dec q1 q2) as [-> | Hne].
  - assert (r1 <= r2) by lia.
    destruct (Z.ltb_spec r1 h), (Z.ltb_spec h r1), (Z.ltb_spec r2 h), (Z.ltb_spec h r2);
      destruct (Z.even q2); lia.
  - destruct (r1 <? h), (h <? r1), (r2 <? h), (h <? r2), (Z.even q1), (Z.even q2); lia.
Qed.

Lemma div_pow2_lt (m d n k : Z) :
  0 <= m < 2 ^ d -> 0 < n -> 0 <= k -> d - k <= n -> m / 2 ^ n < 2 ^ k.
Proof.
  intros Hm Hn Hk Hd.
  apply Z.div_lt_upper_bound; [apply Z.pow_pos_nonneg; lia |].
  rewrite <- Z.pow_add_r by lia.
  destruct Hm as [_ Hm]. eapply Z.lt_le_trans; [exact Hm |].
  apply Z.pow_le_mono_r; lia.
Qed.

Lemma div_pow2_ge (m d n k : Z) :
  2 ^ (d - 1) <= m -> 0 < n -> 0 <= k -> n + k = d - 1 -> 2 ^ k <= m / 2 ^ n.
Proof.
  intros Hm Hn Hk Hd.
  apply Z.div_le_lower_bound; [apply Z.pow_pos_nonneg; lia |].
  rewrite <- Z.pow_add_r by lia. rewrite Hd. exact Hm.
Qed.

Lemma fmt_consts : prec = 53 /\ emax = 1024 /\ emin = -1074.
Proof. repeat split. Qed.

Lemma shr_fexp_small (q e : Z) :
  0 <= q < 2 ^ prec -> emin <= e ->
  shr_fexp prec emax q e loc_Exact = ({| shr_m := q; shr_r := false; shr_s := false |}, e).
Proof.
  intros Hq He. destruct fmt_consts as (Hp & Hx & Hn).
  unfold shr_fexp, fexp. cbn [shr_record_of_loc].
  apply shr_nonpos.
  destruct q as [| p | p]; cbn [Zdigits2]; [lia | | lia].
  destruct (digits2_pos_bounds p) as [L _].
  assert (Hlt : 2 ^ (Zpos (digits2_pos p) - 1) < 2 ^ prec) by lia.
  apply Z.pow_lt_mono_r_iff in Hlt; lia.
Qed.

Lemma shr_fexp_carry (e : Z) :
  emin <= e ->
  shr_fexp prec emax (2 ^ prec) e loc_Exact =
  ({| shr_m := 2 ^ (prec - 1); shr_r := false; shr_s := false |}, e + 1).
Proof.
  intros He. destruct fmt_consts as (Hp & Hx & Hn).
  unfold shr_fexp, fexp. cbn [shr_record_of_loc].
  replace (Z.max (Zdigits2 (2 ^ prec) + e - prec) emin - e) with 1
    by (change (Zdigits2 (2 ^ prec)) with 54; lia).
  rewrite shr_pos by (try apply Z.pow_nonneg; lia).
  reflexivity.
Qed.

Lemma binary_round_aux_pos (sx : bool) (m : positive) (e : Z) :
  binary_round_aux prec emax sx (Zpos m) e loc_Exact = finish sx (round_pos m e).
Proof.
  destruct fmt_consts as (Hp & Hx & Hn).
  unfold binary_round_aux, round_pos.
  unfold shr_fexp at 1. unfold fexp. cbn [Zdigits2 shr_record_of_loc].
  replace (Z.max (Zpos (digits2_pos m) + e - prec) emin - e)
    with (Z.max (Zpos (digits2_pos m) - prec) (emin - e)) by lia.
  set (n := Z.max _ _).
  destruct (Z.leb_spec n 0) as [Hle | Hlt].
  - rewrite shr_nonpos by assumption.
    cbn [shr_m loc_of_shr_record round_nearest_even].
    unfold shr_fexp, fexp. cbn [Zdigits2 shr_record_of_loc].
    rewrite shr_nonpos by (subst n; lia). reflexivity.
  - rewrite shr_pos, rne_shifted by lia.
    pose proof (rne_shift_bounds (Zpos m) n ltac:(lia) Hlt) as [Lq Uq].
    assert (Hdiv : 0 <= Zpos m / 2 ^ n < 2 ^ prec).
    { split; [apply Z.div_pos; [lia | apply Z.pow_pos_nonneg; lia] |].
      apply div_pow2_lt with (d := Zpos (digits2_pos m)); try lia.
      destruct (digits2_pos_bounds m); lia. }
    destruct (Z.eqb_spec (rne_shift (Zpos m) n) (2 ^ prec)) as [Hc | Hc].
    + rewrite Hc, shr_fexp_carry by lia. unfold finish. cbn [fst snd shr_m].
      reflexivity.
    + rewrite shr_fexp_small by lia. reflexivity.
Qed.

Lemma round_pos_cases (m : positive) (e : Z) :
  let n := Z.max (Zpos (digits2_pos m) - prec) (emin - e) in
  (n <= 0 /\ round_pos m e = (Zpos m, e)) \/
  (0 < n /\ exists q, 0 <= q /\ Zpos m / 2 ^ n <= q /\ q = rne_shift (Zpos m) n /\
     ((q < 2 ^ prec /\ round_pos m e = (q, e + n)) \/
      (q = 2 ^ prec /\ round_pos m e = (2 ^ (prec - 1), e + n + 1)))).
Proof.
  destruct fmt_consts as (Hp & Hx & Hn).
  intros n. unfold round_pos. fold n.
  destruct (Z.leb_spec n 0) as [Hle | Hlt]; [left; split; [assumption | reflexivity] |].
  right. split; [assumption |].
  exists (rne_shift (Zpos m) n).
  pose proof (rne_shift_bounds (Zpos m) n ltac:(lia) Hlt) as [Lq Uq].
  assert (Hdiv : 0 <= Zpos m / 2 ^ n < 2 ^ prec).
  { split; [apply Z.div_pos; [lia | apply Z.pow_pos_nonneg; lia] |].
    apply div_pow2_lt with (d := Zpos (digits2_pos m)); try lia.
    destruct (digits2_pos_bounds m); lia. }
  repeat split; try lia.
  destruct (Z.eqb_spec (rne_shift (Zpos m) n) (2 ^ prec)); [right | left]; split;
    try reflexivity; lia.
Qed.

Lemma round_pos_mono (m1 m2 : positive) (e : Z) :
  (m1 <= m2)%positive -> res_le (round_pos m1 e) (round_pos m2 e).
Proof.
  intros Hm. destruct fmt_consts as (Hp & Hx & Hn).
  pose proof (digits2_pos_mono m1 m2 Hm) as Hd.
  destruct (pow2_split prec ltac:(lia)) as [Hpp Hph].
  assert (Hnorm : forall m : positive,
    emin - e < Zpos (digits2_pos m) - prec -> 0 < Zpos (digits2_pos m) - prec ->
    2 ^ (prec - 1) <= Zpos m / 2 ^ (Zpos (digits2_pos m) - prec)).
  { intros m _ Hpos. apply div_pow2_ge with (d := Zpos (digits2_pos m)); try lia.
    destruct (digits2_pos_bounds m); lia. }
  pose proof (Hnorm m2) as Hnorm2. clear Hnorm.
  destruct (round_pos_cases m1 e) as [[Hn1 ->] | (Hn1 & q1 & Hq1 & Lq1 & Eq1 & C1)];
    destruct (round_pos_cases m2 e) as [[Hn2 ->] | (Hn2 & q2 & Hq2 & Lq2 & Eq2 & C2)];
    unfold res_le.
  - right. cbn [fst snd]. lia.
  - right.
    assert (En2 : Z.max (Zpos (digits2_pos m2) - prec) (emin - e) = Zpos (digits2_pos m2) - prec) by lia.
    rewrite En2 in *. specialize (Hnorm2 ltac:(lia) ltac:(lia)).
    destruct C2 as [[? ->] | [? ->]]; cbn [fst snd]; lia.
  - lia.
  - destruct (Z.eq_dec (Z.max (Zpos (digits2_pos m1) - prec) (emin - e))
                       (Z.max (Zpos (digits2_pos m2) - prec) (emin - e))) as [En | En].
    + rewrite <- En in *.
      assert (Hq : q1 <= q2) by (subst q1 q2; apply rne_shift_mono; lia).
      destruct (Z.eq_dec q1 0) as [Hz | Hz].
      * left. destruct C1 as [[? ->] | [? ->]]; cbn [fst]; lia.
      * right. destruct C1 as [[? ->] | [? ->]], C2 as [[? ->] | [? ->]]; cbn [fst snd]; lia.
    + assert (En2 : Z.max (Zpos (digits2_pos m2) - prec) (emin - e) = Zpos (digits2_pos m2) - prec) by lia.
      rewrite En2 in *. specialize (Hnorm2 ltac:(lia) ltac:(lia)).
      destruct (Z.eq_dec q1 0) as [Hz | Hz].
      * left. destruct C1 as [[? ->] | [? ->]]; cbn [fst]; lia.
      * right. destruct C1 as [[? ->] | [? ->]], C2 as [[? ->] | [? ->]]; cbn [fst snd]; lia.
Qed.

Lemma round_pos_nonneg (m : positive) (e : Z) : 0 <= fst (round_pos m e).
Proof.
  destruct fmt_consts as (Hp & Hx & Hn).
  destruct (pow2_split prec ltac:(lia)) as [Hpp Hph].
  destruct (round_pos_cases m e) as [[_ ->] | (_ & q & Hq & _ & _ & [[? ->] | [? ->]])];
    cbn [fst]; lia.
Qed.

Lemma finish_le (r1 r2 : Z * Z) :
  0 <= fst r2 -> res_le r1 r2 -> SFleb (finish false r1) (finish false r2) = true.
Proof.
  destruct r1 as [a1 e1], r2 as [a2 e2]. unfold res_le, finish. cbn [fst snd].
  intros H2 [Hz | (P1 & P2 & Hle)].
  - subst a1. destruct a2 as [| p | p]; [reflexivity | | lia].
    destruct (e2 <=? emax - prec); reflexivity.
  - destruct a1 as [| p1 | p1]; try lia. destruct a2 as [| p2 | p2]; try lia.
    destruct (Z.leb_spec e1 (emax - prec)), (Z.leb_spec e2 (emax - prec));
      try reflexivity; [| lia].
    unfold SFleb, SFcompare.
    destruct (Z.compare_spec e1 e2); try reflexivity; [| lia].
    assert (Hp : (p1 <= p2)%positive) by lia.
    rewrite Pos.compare_cont_spec. cbn. 
    destruct (Pos.compare_spec p1 p2); try reflexivity. lia.
Qed.

(** ** Order facts on [spec_float] *)

Lemma finish_nonneg (r : Z * Z) : 0 <= fst r -> sf_nonneg (finish false r).
Proof.
  destruct r as [a e]. unfold finish. cbn [fst snd]. intros Ha.
  destruct a; [exact I | | lia]. destruct (_ <=? _); exact I.
Qed.

Lemma binary_round_nonneg (m : positive) (e : Z) :
  sf_nonneg (binary_round prec emax false m e).
Proof.
  unfold binary_round.
  destruct (shl_align m e _) as [mz ez].
  rewrite binary_round_aux_pos. apply finish_nonneg, round_pos_nonneg.
Qed.

Lemma binary_normalize_nonneg (z e : Z) :
  0 <= z -> sf_nonneg (binary_normalize prec emax z e false).
Proof.
  intros Hz. destruct z as [| p | p]; [exact I | apply binary_round_nonneg | lia].
Qed.

Lemma SF2Prim_nonneg (x : spec_float) : sf_nonneg x -> sf_nonneg (Prim2SF (SF2Prim x)).
Proof.
  destruct x as [[] | [] | | [] m e]; cbn [sf_nonneg]; intros H; try contradiction;
    try exact I.
  cbn [SF2Prim]. rewrite Z_ldexp_spec, of_uint63_spec.
  pose proof (binary_normalize_nonneg (Uint63.to_Z (Uint63.of_Z (Zpos m))) 0
                ltac:(apply Uint63.to_Z_bounded)) as Hn.
  destruct (binary_normalize _ _ _ _ _) as [[] | [] | | [] m' e']; cbn [sf_nonneg] in Hn;
    try contradiction; cbn [SFldexp]; try exact I.
  apply binary_round_nonneg.
Qed.

Lemma SFmul_mono_l (m1 m2 : positive) (e : Z) (y : spec_float) :
  (m1 <= m2)%positive -> sf_nonneg y ->
  SFleb (SFmul prec emax (S754_finite false m1 e) y)
        (SFmul prec emax (S754_finite false m2 e) y) = true.
Proof.
  intros Hm Hy.
  destruct y as [[] | [] | | [] m e']; cbn [sf_nonneg] in Hy; try contradiction;
    try reflexivity.
  cbn [SFmul xorb]. rewrite !binary_round_aux_pos.
  apply finish_le; [apply round_pos_nonneg |].
  apply round_pos_mono. nia.
Qed.

Lemma pos_compare_cont_Eq (p q : positive) :
  Pos.compare_cont Eq p q = Pos.compare p q.
Proof. reflexivity. Qed.

Lemma SFltb_leb_trans (a b c : spec_float) :
  SFltb a b = true -> SFleb b c = true -> SFltb a c = true.
Proof.
  unfold SFltb, SFleb.
  destruct a as [[] | [] | | [] m1 e1], b as [[] | [] | | [] m2 e2], c as [[] | [] | | [] m3 e3];
    cbn [SFcompare]; intros H1 H2; try discriminate; try reflexivity;
    rewrite ?pos_compare_cont_Eq in *;
    destruct (Z.compare_spec e1 e2), (Z.compare_spec e2 e3), (Z.compare_spec e1 e3);
    try discriminate; try reflexivity; try lia;
    destruct (Pos.compare_spec m1 m2), (Pos.compare_spec m2 m3), (Pos.compare_spec m1 m3);
    cbn [CompOpp] in *; try discriminate; try reflexivity; lia.
Qed.

(** ** The risk classifier *)

Lemma of_Z_nonneg (z : Z) : 0 <= z -> sf_nonneg (Prim2SF (F64.of_Z z)).
Proof.
  intros Hz. unfold F64.of_Z. apply SF2Prim_nonneg, binary_normalize_nonneg, Hz.
Qed.

(** With a stock that is not negative, [0.7 * stock <= 0.9 * stock] also
    after both products are rounded, so a demand below the first is below
    the second. *)
Lemma demand_threshold_mono (r : Predicted) :
  0 <= StockQty r -> demand_below 0.7 r = true -> demand_below 0.9 r = true.
Proof.
  unfold demand_below. intros Hs H.
  rewrite ltb_spec, mul_spec in *.
  eapply SFltb_leb_trans; [exact H |].
  change (Prim2SF 0.7) with (S754_finite false 6305039478318694 (-53)).
  change (Prim2SF 0.9) with (S754_finite false 8106479329266893 (-53)).
  apply SFmul_mono_l; [lia | apply of_Z_nonneg, Hs].
Qed.




(** The four worked rows of the specification. *)
Example classify_risk_examples :
  map RiskLevel (classify_risk [sample_row "Milk" "Dairy" 65 100 3;
                                sample_row "Milk" "Dairy" 85 100 20;
                                sample_row "Milk" "Dairy" 95 100 20;
                                sample_row "Milk" "Dairy" 65 100 20]) =
  ["HIGH"; "MEDIUM"; "LOW"; "MEDIUM"].
Proof. vm_compute. reflexivity. Qed.

(** The products are rounded: [0.9 * 13] is the double just above 11.7,
    so a demand of 11.7 is below it. *)
Example rounded_threshold_example :
  map RiskLevel (classify_risk [sample_row "Milk" "Dairy" 11.7 13 20]) = ["MEDIUM"].
Proof. vm_compute. reflexivity. Qed.

(** On a negative stock the two thresholds swap: a demand below [0.7 *
    stock] need not be below [0.9 * stock]. *)
Example negative_stock_example :
  map RiskLevel (classify_risk [sample_row "Milk" "Dairy" (-8) (-10) 20]) = ["LOW"].
Proof. vm_compute. reflexivity. Qed.

(** C10. The label of a record is a function of its PredictedDemand,
    StockQty and DaysToExpire alone: two records that agree on these three
    fields get the same RiskLevel, whatever their other fields and whatever
    the other rows of their tables. *)
Theorem classify_risk_depends_on (df1 df2 : list Predicted) (a1 a2 : Annotated) :
  In a1 (classify_risk df1) -> In a2 (classify_risk df2) ->
  PredictedDemand a1 = PredictedDemand a2 ->
  StockQty a1 = StockQty a2 ->
  DaysToExpire a1 = DaysToExpire a2 ->
  RiskLevel a1 = RiskLevel a2.
Proof.
  intros H1 H2.
  apply in_map_iff in H1 as (r1 & <- & _). apply in_map_iff in H2 as (r2 & <- & _).
  cbn [predicted RiskLevel]. intros Hp Hs Hd.
  unfold conditions, demand_below. rewrite Hp, Hs, Hd. reflexivity.
Qed.

Lemma classify_risk_depends_on_witness :
  RiskLevel (nth 0 (classify_risk [sample_row "Milk" "Dairy" 65 100 3])
                   (mkAnnotated (sample_row "Milk" "Dairy" 0 0 0) "LOW")) =
  RiskLevel (nth 1 (classify_risk [sample_row "Rolls" "Bakery" 95 100 20;
                                   sample_row "Bread" "Bakery" 65 100 3])
                   (mkAnnotated (sample_row "Milk" "Dairy" 0 0 0) "LOW")).
Proof.
  apply (classify_risk_depends_on
           [sample_row "Milk" "Dairy" 65 100 3]
           [sample_row "Rolls" "Bakery" 95 100 20; sample_row "Bread" "Bakery" 65 100 3]).
  - left. reflexivity.
  - right. left. reflexivity.
  - reflexivity.
  - reflexivity.
  - reflexivity.
Defined.

(** ** The category filter *)


Lemma isin_In (v : string) (values : list string) :
  isin v values = true <-> In v values.
Proof.
  unfold isin. rewrite existsb_exists. split.
  - intros (x & Hin & Heq). apply String.eqb_eq in Heq. subst. exact Hin.
  - intros Hin. exists v. split; [exact Hin | apply String.eqb_refl].
Qed.

Lemma filter_all {A} (f : A -> bool) (l : list A) :
  (forall x, In x l -> f x = true) -> filter f l = l.
Proof.
  induction l as [| x t IH]; intros H; cbn [filter]; [reflexivity |].
  rewrite (H x (or_introl eq_refl)), IH; [reflexivity |].
  intros y Hy. apply H. right. exact Hy.
Qed.


(** ** The at-risk table *)

Lemma compare_lt_trans (s1 s2 s3 : string) :
  String.compare s1 s2 = Lt -> String.compare s2 s3 = Lt -> String.compare s1 s3 = Lt.
Proof.
  intros H1 H2.
  apply String_as_OT.cmp_lt in H1. apply String_as_OT.cmp_lt in H2.
  apply String_as_OT.cmp_lt. exact (String_as_OT.lt_trans _ _ _ H1 H2).
Qed.

Lemma sort_key_leb_trans (a b c : Annotated) :
  sort_key_leb a b = true -> sort_key_leb b c = true -> sort_key_leb a c = true.
Proof.
  unfold sort_key_leb.
  destruct (String.compare (RiskLevel a) (RiskLevel b)) eqn:Hab; try discriminate;
    destruct (String.compare (RiskLevel b) (RiskLevel c)) eqn:Hbc; try discriminate;
    intros H1 H2.
  - apply String.compare_eq_iff in Hab, Hbc. rewrite Hab, Hbc.
    replace (String.compare (RiskLevel c) (RiskLevel c)) with Eq
      by (symmetry; apply String_as_OT.cmp_eq; reflexivity).
    apply Z.leb_le. apply Z.leb_le in H1, H2. lia.
  - apply String.compare_eq_iff in Hab. rewrite Hab, Hbc. reflexivity.
  - apply String.compare_eq_iff in Hbc. rewrite <- Hbc, Hab. reflexivity.
  - rewrite (compare_lt_trans _ _ _ Hab Hbc). reflexivity.
Qed.

Lemma sort_key_leb_total (a b : Annotated) :
  sort_key_leb a b = false -> sort_key_leb b a = true.
Proof.
  unfold sort_key_leb. rewrite (String.compare_antisym (RiskLevel b) (RiskLevel a)).
  destruct (String.compare (RiskLevel a) (RiskLevel b)); cbn [CompOpp];
    try discriminate; try reflexivity.
  intros H. apply Z.leb_gt in H. apply Z.leb_le. lia.
Qed.

Lemma insert_by_perm (x : Annotated) (l : list Annotated) :
  Permutation (insert_by x l) (x :: l).
Proof.
  induction l as [| y t IH]; cbn [insert_by]; [reflexivity |].
  destruct (sort_key_leb x y); [reflexivity |].
  rewrite IH. apply perm_swap.
Qed.

Lemma sort_values_perm (l : list Annotated) : Permutation (sort_values l) l.
Proof.
  induction l as [| x t IH]; cbn; [reflexivity |].
  fold (sort_values t). rewrite insert_by_perm, IH. reflexivity.
Qed.

Lemma insert_by_sorted (x : Annotated) (l : list Annotated) :
  StronglySorted (fun a b => sort_key_leb a b = true) l ->
  StronglySorted (fun a b => sort_key_leb a b = true) (insert_by x l).
Proof.
  induction 1 as [| y t Hs IH Hy]; cbn [insert_by].
  - constructor; constructor.
  - destruct (sort_key_leb x y) eqn:Hxy.
    + constructor; [constructor; assumption |].
      constructor; [exact Hxy |].
      eapply Forall_impl; [| exact Hy].
      intros z Hz. exact (sort_key_leb_trans _ _ _ Hxy Hz).
    + constructor; [exact IH |].
      apply (Permutation_Forall (Permutation_sym (insert_by_perm x t))).
      constructor; [apply sort_key_leb_total, Hxy | exact Hy].
Qed.

Lemma sort_values_sorted (l : list Annotated) :
  StronglySorted (fun a b => sort_key_leb a b = true) (sort_values l).
Proof.
  induction l as [| x t IH]; cbn; [constructor |].
  fold (sort_values t). apply insert_by_sorted, IH.
Qed.

Lemma StronglySorted_on {A} (P : A -> Prop) (R R' : A -> A -> Prop) (l : list A) :
  (forall a b, P a -> P b -> R a b -> R' a b) ->
  Forall P l -> StronglySorted R l -> StronglySorted R' l.
Proof.
  intros Himp HP Hs. induction Hs as [| x t Hs IH Hx]; [constructor |].
  apply Forall_cons_iff in HP as [Px Pt].
  constructor; [apply IH, Pt |].
  apply Forall_forall. intros y Hy.
  apply Himp; [exact Px | | ].
  - exact (proj1 (Forall_forall P t) Pt y Hy).
  - exact (proj1 (Forall_forall _ t) Hx y Hy).
Qed.

Lemma sort_key_on_tiers (a b : Annotated) :
  RiskLevel a = "HIGH" \/ RiskLevel a = "MEDIUM" ->
  RiskLevel b = "HIGH" \/ RiskLevel b = "MEDIUM" ->
  sort_key_leb a b = true -> tier_then_days a b.
Proof.
  unfold sort_key_leb, tier_then_days.
  intros [Ha | Ha] [Hb | Hb]; rewrite Ha, Hb; cbn; intros H;
    try discriminate; try (left; split; reflexivity);
    right; (split; [reflexivity | apply Z.leb_le, H]).
Qed.

(** C2. The at-risk table holds exactly the rows of the filtered table
    whose RiskLevel is HIGH or MEDIUM (each as often as it occurs there),
    with every HIGH row before every MEDIUM row and, within one level, the
    rows in ascending DaysToExpire. *)
Theorem at_risk_spec (filtered : list Annotated) :
  Permutation (at_risk filtered)
    (filter (fun r => isin (RiskLevel r) ["HIGH"; "MEDIUM"]) filtered) /\
  (forall r, In r (at_risk filtered) <->
             In r filtered /\ (RiskLevel r = "HIGH" \/ RiskLevel r = "MEDIUM")) /\
  StronglySorted tier_then_days (at_risk filtered).
Proof.
  assert (Hin : forall r, In r (at_risk filtered) <->
             In r filtered /\ (RiskLevel r = "HIGH" \/ RiskLevel r = "MEDIUM")).
  { intros r. unfold at_risk.
    transitivity (In r (filter (fun r => isin (RiskLevel r) ["HIGH"; "MEDIUM"]) filtered)).
    - split; apply Permutation_in;
        [apply sort_values_perm | apply Permutation_sym, sort_values_perm].
    - rewrite filter_In, isin_In. cbn [In]. intuition congruence. }
  split; [apply sort_values_perm |]. split; [exact Hin |].
  apply StronglySorted_on
    with (P := fun r => RiskLevel r = "HIGH" \/ RiskLevel r = "MEDIUM")
         (R := fun a b => sort_key_leb a b = true).
  - exact sort_key_on_tiers.
  - apply Forall_forall. intros r Hr. apply Hin in Hr. tauto.
  - apply sort_values_sorted.
Qed.

Example at_risk_example :
  map (fun a : Annotated => (RiskLevel a, DaysToExpire a))
      (at_risk (classify_risk [sample_row "Rolls" "Bakery" 85 100 20;
                               sample_row "Milk" "Dairy" 65 100 3;
                               sample_row "Jam" "Condiments" 95 100 20;
                               sample_row "Tea" "Beverages" 95 100 6;
                               sample_row "Bread" "Bakery" 60 100 1])) =
  [("HIGH", 1); ("HIGH", 3); ("MEDIUM", 6); ("MEDIUM", 20)].
Proof. vm_compute. reflexivity. Qed.

(** ** The store: append, delete, load *)

Lemma condition_identity (row r : InventoryRecord) :
  condition row r = true <-> identity r = identity row.
Proof.
  unfold condition, identity. rewrite !andb_true_iff, !String.eqb_eq, Z.eqb_eq.
  split.
  - intros [[[-> ->] ->] ->]. reflexivity.
  - intros H. injection H as -> -> -> ->. repeat split.
Qed.

Lemma confirm_delete_run (filtered : list Annotated) (selected_idx : nat)
    (row : Annotated) (w : World) (table : list InventoryRecord) :
  nth_error filtered selected_idx = Some row ->
  mock_inventory_csv w = Some table ->
  confirm_delete filtered selected_idx w =
  (Ok st_success,
   {| mock_inventory_csv := Some (delete_matching row table);
      manual_data := manual_data w;
      show_delete := false |}).
Proof.
  intros Hrow Hw. unfold confirm_delete, try_except, bind, read_csv.
  rewrite Hw, Hrow. reflexivity.
Qed.




Lemma add_item_run (f : FormInput) (w : World) :
  add_item f w =
  (Ok tt, {| mock_inventory_csv :=
               Some (match mock_inventory_csv w with
                     | Some table => table
                     | None => []
                     end ++ [new_entry f]);
             manual_data := manual_data w;
             show_delete := show_delete w |}).
Proof.
  unfold add_item, bind, try_except, read_csv, to_csv.
  destruct (mock_inventory_csv w); reflexivity.
Qed.




(** ** The pipeline has no effect on the store *)

Lemma read_only_ret {A} (a : A) : read_only (ret a).
Proof. intros w. reflexivity. Qed.

Lemma read_only_raise {A} (e : exn) : read_only (@raise A e).
Proof. intros w. reflexivity. Qed.

Lemma read_only_lift {A} (r : result A) : read_only (lift r).
Proof. intros w. reflexivity. Qed.

Lemma read_only_read_csv : read_only read_csv.
Proof. intros w. unfold read_csv. destruct (mock_inventory_csv w); reflexivity. Qed.

Lemma read_only_get_manual_data : read_only get_manual_data.
Proof. intros w. reflexivity. Qed.

Lemma read_only_bind {A B} (c : App A) (k : A -> App B) :
  read_only c -> (forall a, read_only (k a)) -> read_only (bind c k).
Proof.
  intros Hc Hk w. unfold bind. specialize (Hc w).
  destruct (c w) as [[a | e] w']; cbn [snd] in Hc; subst w'; [apply Hk | reflexivity].
Qed.

Create HintDb frame.

#[local] Hint Resolve read_only_ret read_only_raise read_only_lift
  read_only_read_csv read_only_get_manual_data : frame.

Lemma read_only_load_data (uploaded_file : option (list InventoryRecord))
    (today : Timestamp) : read_only (load_data uploaded_file today).
Proof.
  unfold load_data. apply read_only_bind; [destruct uploaded_file |]; auto with frame.
Qed.

Lemma read_only_process lstsq (uploaded_file : option (list InventoryRecord))
    (today today' : Timestamp) : read_only (process lstsq uploaded_file today today').
Proof.
  unfold process.
  apply read_only_bind; [apply read_only_load_data | intros df].
  apply read_only_bind; [auto with frame | intros manual].
  apply read_only_bind; auto with frame.
Qed.

(** C8. A run of the pipeline (load, days to expire, fit, predict,
    classify, filter, sort) leaves the record store and the session as
    they were, whether it completes or fails: nothing it derives is
    written to storage. *)
Theorem pipeline_run_frame lstsq (uploaded_file : option (list InventoryRecord))
    (today today' : Timestamp) (selected_category : list string) (w : World) :
  let w' := snd (pipeline_run lstsq uploaded_file today today' selected_category w) in
  w' = w /\ mock_inventory_csv w' = mock_inventory_csv w.
Proof.
  assert (H : read_only (pipeline_run lstsq uploaded_file today today' selected_category)).
  { unfold pipeline_run. apply read_only_bind; [apply read_only_process |].
    intros df. apply read_only_ret. }
  cbv zeta. rewrite (H w). split; reflexivity.
Qed.

(** ** Fitting fails on an empty or non-numeric target *)





(** ** Prediction on categories the encoder has not seen *)
















Lemma one_hot_unseen (categories : list string) (v : string) :
  ~ In v categories -> one_hot categories v = repeat 0%float (List.length categories).
Proof.
  induction categories as [| c t IH]; cbn [one_hot map repeat List.length In];
    intros Hv; [reflexivity |].
  destruct (String.eqb_spec c v) as [-> | _]; [exfalso; apply Hv; left; reflexivity |].
  f_equal. apply IH. intros Hin. apply Hv. right. exact Hin.
Qed.






(** ** Running the pipeline twice *)

Lemma process_run lstsq (uploaded_file : option (list InventoryRecord))
    (today today' : Timestamp) (w : World) :
  process lstsq uploaded_file today today' w =
  (match combined_frame uploaded_file today today' w with
   | None => Err FileNotFoundError
   | Some df =>
       match train_model lstsq df with
       | Ok model => Ok (classify_risk (apply_predictions df model))
       | Err e => Err e
       end
   end, w).
Proof.
  unfold process, combined_frame, source_rows, load_data, bind, read_csv, ret, lift,
    get_manual_data.
  destruct uploaded_file as [table |]; [| destruct (mock_inventory_csv w) as [table |]];
    try reflexivity;
    (destruct (manual_data w) as [| m ms]; [rewrite app_nil_r |]);
    match goal with |- context [train_model lstsq ?df] => destruct (train_model lstsq df) end;
    reflexivity.
Qed.

Lemma with_days_records (today : Timestamp) (rows : list InventoryRecord) :
  map record (with_days today rows) = rows.
Proof. unfold with_days. rewrite map_map. cbn [record]. apply map_id. Qed.

Lemma numeric_target_records (df1 df2 : list Loaded) :
  map record df1 = map record df2 -> numeric_target df1 = numeric_target df2.
Proof.
  revert df2. induction df1 as [| r1 t1 IH]; intros [| r2 t2] H; cbn [map] in H;
    try discriminate; [reflexivity |].
  injection H as Hr Ht. cbn [numeric_target]. rewrite Hr, (IH t2 Ht). reflexivity.
Qed.

Lemma column_of_records {B} (f : InventoryRecord -> B) (df : list Loaded) :
  map (fun r : Loaded => f r) df = map f (map record df).
Proof. rewrite map_map. reflexivity. Qed.

(** The fit reads the stored columns only: two frames with the same
    records give the same model. *)
Lemma train_model_records lstsq (df1 df2 : list Loaded) :
  map record df1 = map record df2 -> train_model lstsq df1 = train_model lstsq df2.
Proof.
  intros H. unfold train_model, fit_encoder.
  rewrite (numeric_target_records df1 df2 H).
  rewrite !(column_of_records _ df1), !(column_of_records _ df2), H.
  destruct df1, df2; try discriminate; reflexivity.
Qed.

Lemma demands_records (model : Model) (df1 df2 : list Loaded) :
  map record df1 = map record df2 ->
  map (fun a : Annotated => PredictedDemand a) (classify_risk (apply_predictions df1 model)) =
  map (fun a : Annotated => PredictedDemand a) (classify_risk (apply_predictions df2 model)).
Proof.
  intros H. unfold classify_risk, apply_predictions. rewrite !map_map.
  cbn [predicted PredictedDemand].
  rewrite (column_of_records (fun r => F64.round2 (predict model r)) df1).
  rewrite (column_of_records (fun r => F64.round2 (predict model r)) df2).
  rewrite H. reflexivity.
Qed.

Lemma days_date_only (k : Z) (t : Timestamp) :
  t mod day_ns <> 0 -> days (k * day_ns - t) = k - date_of t - 1.
Proof.
  intros Ht. unfold days, date_of.
  pose proof (Z.div_mod t day_ns ltac:(discriminate)) as E.
  pose proof (Z.mod_pos_bound t day_ns ltac:(reflexivity)) as B.
  symmetry. apply Z.div_unique with (r := day_ns - t mod day_ns); unfold day_ns in *; lia.
Qed.

Lemma date_only_multiple (r : InventoryRecord) :
  date_only r -> ExpiryDate r = (ExpiryDate r / day_ns) * day_ns.
Proof.
  unfold date_only, normalize. intros H.
  pose proof (Z.div_mod (ExpiryDate r) day_ns ltac:(discriminate)) as E.
  unfold day_ns in *. lia.
Qed.

Lemma with_days_same_date (a b : Timestamp) (rows : list InventoryRecord) :
  Forall date_only rows -> date_of a = date_of b ->
  a mod day_ns <> 0 -> b mod day_ns <> 0 ->
  with_days a rows = with_days b rows.
Proof.
  intros Hrows Hd Ha Hb. unfold with_days. apply map_ext_in. intros r Hr.
  f_equal. rewrite (date_only_multiple r (proj1 (Forall_forall _ _) Hrows r Hr)).
  rewrite !days_date_only by assumption. rewrite Hd. reflexivity.
Qed.

(** C7 as stated fails: on one calendar date, a run at midnight and a
    run one hour later see 5 and 4 days to expiry for the same row, and
    label it MEDIUM and HIGH. *)
Lemma process_same_date_counterexample :
  date_of midnight = date_of one_o_clock /\
  outputs (fst (process constant_design_solver None midnight midnight midnight_store))
    = Some [(50%float, "MEDIUM")] /\
  outputs (fst (process constant_design_solver None one_o_clock one_o_clock midnight_store))
    = Some [(50%float, "HIGH")] /\
  outputs (fst (process constant_design_solver None midnight midnight midnight_store))
    <> outputs (fst (process constant_design_solver None one_o_clock one_o_clock
                       midnight_store)).
Proof.
  split; [reflexivity |]. split; [vm_compute; reflexivity |].
  split; [vm_compute; reflexivity |].
  vm_compute. discriminate.
Qed.

(** An expiry date with a time of day makes the count depend on the time
    of the run even away from midnight. *)
Example expiry_time_of_day_example :
  days (20005 * day_ns + 43200000000000 - (20000 * day_ns + 39600000000000)) = 5 /\
  days (20005 * day_ns + 43200000000000 - (20000 * day_ns + 46800000000000)) = 4.
Proof. split; reflexivity. Qed.

(** C7, amended.  Two runs of the pipeline on the same store, upload and
    staged entries predict the same demands whatever the clock says; and
    when every expiry date is a date without a time of day, the clock
    readings of both runs fall on the same calendar date and none of them
    is exactly midnight, both runs give every record the same
    PredictedDemand and RiskLevel. *)
Theorem process_repeatable lstsq (uploaded_file : option (list InventoryRecord))
    (w : World) (a a' b b' : Timestamp) :
  demands (fst (process lstsq uploaded_file a a' w)) =
  demands (fst (process lstsq uploaded_file b b' w)) /\
  (forall rows, source_rows uploaded_file w = Some rows ->
     Forall date_only rows -> Forall date_only (manual_data w) ->
     date_of a = date_of b -> date_of a' = date_of b' ->
     a mod day_ns <> 0 -> b mod day_ns <> 0 ->
     a' mod day_ns <> 0 -> b' mod day_ns <> 0 ->
     outputs (fst (process lstsq uploaded_file a a' w)) =
     outputs (fst (process lstsq uploaded_file b b' w))).
Proof.
  rewrite !process_run. cbn [fst]. unfold combined_frame. split.
  - destruct (source_rows uploaded_file w) as [rows |]; [| reflexivity].
    assert (H : map record (with_days a rows ++ with_days a' (manual_data w)) =
                map record (with_days b rows ++ with_days b' (manual_data w)))
      by (rewrite !map_app, !with_days_records; reflexivity).
    rewrite (train_model_records lstsq _ _ H).
    destruct (train_model lstsq _) as [model | e]; [| reflexivity].
    cbn [demands]. f_equal. apply demands_records, H.
  - intros rows -> Hrows Hmanual Hd Hd' Ha Hb Ha' Hb'.
    rewrite (with_days_same_date a b rows Hrows Hd Ha Hb).
    rewrite (with_days_same_date a' b' _ Hmanual Hd' Ha' Hb'). reflexivity.
Qed.

Lemma process_repeatable_witness :
  outputs (fst (process constant_design_solver None
                  one_o_clock one_o_clock midnight_store)) =
  outputs (fst (process constant_design_solver None
                  (one_o_clock + 1000) (one_o_clock + 2000) midnight_store)).
Proof.
  refine (proj2 (process_repeatable constant_design_solver None midnight_store
                   one_o_clock one_o_clock (one_o_clock + 1000) (one_o_clock + 2000))
            _ eq_refl _ _ eq_refl eq_refl _ _ _ _).
  - repeat constructor.
  - constructor.
  - discriminate.
  - discriminate.
  - discriminate.
  - discriminate.
Defined.

(** * Further properties of the code *)

(** ** Loading *)

Lemma load_data_rows (uploaded_file : option (list InventoryRecord))
    (today : Timestamp) (w w' : World) (df : list Loaded) :
  load_data uploaded_file today w = (Ok df, w') ->
  exists rows, source_rows uploaded_file w = Some rows /\ df = with_days today rows.
Proof.
  unfold load_data, bind, read_csv, ret, source_rows.
  destruct uploaded_file as [table |]; [| destruct (mock_inventory_csv w) as [table |]];
    intros H; try discriminate; injection H as <- _; exists table; split; reflexivity.
Qed.

Lemma days_at_midnight (k : Z) (t : Timestamp) :
  t mod day_ns = 0 -> days (k * day_ns - t) = k - date_of t.
Proof.
  intros Ht. unfold days, date_of.
  pose proof (Z.div_mod t day_ns ltac:(discriminate)) as E.
  symmetry. apply Z.div_unique with (r := 0); unfold day_ns in *; lia.
Qed.

(** X1. For an expiry date without a time of day, the loaded DaysToExpire
    is the difference of the calendar dates when the clock reads exactly
    midnight, and one less at any other time of the day: an item that
    expires today already counts -1 days. *)
Theorem load_data_days_to_expire (uploaded_file : option (list InventoryRecord))
    (today : Timestamp) (w w' : World) (df : list Loaded) (l : Loaded) :
  load_data uploaded_file today w = (Ok df, w') ->
  In l df -> date_only l ->
  DaysToExpire l =
    date_of (ExpiryDate l) - date_of today - (if today mod day_ns =? 0 then 0 else 1).
Proof.
  intros Hload Hin Hdate.
  destruct (load_data_rows _ _ _ _ _ Hload) as (rows & _ & ->).
  unfold with_days in Hin. apply in_map_iff in Hin as (r & <- & _).
  cbn [record DaysToExpire] in *.
  rewrite (date_only_multiple r Hdate) at 1.
  destruct (Z.eqb_spec (today mod day_ns) 0) as [Hz | Hnz].
  - rewrite days_at_midnight by assumption. unfold date_of. lia.
  - rewrite days_date_only by assumption. unfold date_of. lia.
Qed.

Lemma load_data_days_to_expire_witness :
  map DaysToExpire (with_days one_o_clock
                      [sample_record "Milk" "Dairy" "S01" 100 50 20000]) = [-1].
Proof.
  pose proof (load_data_days_to_expire None one_o_clock
                {| mock_inventory_csv := Some [sample_record "Milk" "Dairy" "S01" 100 50 20000];
                   manual_data := []; show_delete := false |} _ _
                {| record := sample_record "Milk" "Dairy" "S01" 100 50 20000;
                   DaysToExpire := days (20000 * day_ns - one_o_clock) |}
                eq_refl (or_introl eq_refl) eq_refl) as H.
  cbn [DaysToExpire] in H. cbn [with_days map DaysToExpire].
  unfold sample_record at 1. cbn [ExpiryDate]. rewrite H. reflexivity.
Defined.





(** X4. While a file is uploaded the page shows the upload only: what a
    run returns is the same before and after a row is added to the store
    and before and after a row is deleted from it, and the run succeeds
    or fails the same way even when the store file is missing. *)
Theorem process_upload_ignores_store lstsq (table : list InventoryRecord)
    (today today' : Timestamp) (w : World) :
  (forall f : FormInput,
     fst (process lstsq (Some table) today today' (snd (add_item f w))) =
     fst (process lstsq (Some table) today today' w)) /\
  (forall (filtered : list Annotated) (selected_idx : nat),
     fst (process lstsq (Some table) today today'
            (snd (confirm_delete filtered selected_idx w))) =
     fst (process lstsq (Some table) today today' w)) /\
  (forall w0 : World, manual_data w0 = manual_data w ->
     fst (process lstsq (Some table) today today' w0) =
     fst (process lstsq (Some table) today today' w)).
Proof.
  assert (H : forall w0 : World, manual_data w0 = manual_data w ->
     fst (process lstsq (Some table) today today' w0) =
     fst (process lstsq (Some table) today today' w)).
  { intros w0 Hm. rewrite !process_run. cbn [fst].
    unfold combined_frame, source_rows. rewrite Hm. reflexivity. }
  split; [| split; [| exact H]].
  - intros f. apply H. rewrite add_item_run. reflexivity.
  - intros filtered selected_idx. apply H.
    unfold confirm_delete, try_except, bind, read_csv, ret, raise, to_csv, set_show_delete.
    destruct (mock_inventory_csv w); [| reflexivity].
    destruct (nth_error filtered selected_idx); reflexivity.
Qed.

(** ** The delete handler *)

Lemma confirm_delete_cases (filtered : list Annotated) (selected_idx : nat) (w : World) :
  (exists row table,
     nth_error filtered selected_idx = Some row /\ mock_inventory_csv w = Some table /\
     confirm_delete filtered selected_idx w =
       (Ok st_success,
        {| mock_inventory_csv := Some (delete_matching row table);
           manual_data := manual_data w; show_delete := false |})) \/
  (mock_inventory_csv w = None /\
   confirm_delete filtered selected_idx w = (Ok (st_error FileNotFoundError), w)) \/
  (mock_inventory_csv w <> None /\ nth_error filtered selected_idx = None /\
   confirm_delete filtered selected_idx w = (Ok (st_error KeyError), w)).
Proof.
  unfold confirm_delete, try_except, bind, read_csv, ret, raise, to_csv, set_show_delete.
  destruct (mock_inventory_csv w) as [table |] eqn:Hw.
  - destruct (nth_error filtered selected_idx) as [row |] eqn:Hrow.
    + left. exists row, table. repeat split.
    + right. right. repeat split. discriminate.
  - right. left. split; reflexivity.
Qed.



Lemma delete_matching_twice (row : InventoryRecord) (table : list InventoryRecord) :
  delete_matching row (delete_matching row table) = delete_matching row table.
Proof.
  unfold delete_matching. apply filter_all. intros r Hr.
  apply filter_In in Hr. apply Hr.
Qed.

Lemma filter_filter_comm {A} (f g : A -> bool) (l : list A) :
  filter f (filter g l) = filter g (filter f l).
Proof.
  induction l as [| x t IH]; [reflexivity |]. cbn [filter].
  destruct (f x) eqn:Hf, (g x) eqn:Hg; cbn [filter]; rewrite ?Hf, ?Hg, IH; reflexivity.
Qed.

(** Run the delete handler on a world whose store is given explicitly. *)
Ltac run_delete Hrow :=
  match goal with
  | |- context [confirm_delete ?f ?i (mkWorld (Some ?t) ?m ?b)] =>
      rewrite (confirm_delete_run f i _ (mkWorld (Some t) m b) t Hrow eq_refl)
  end.

(** X6. Confirming the same deletion twice leaves the world as confirming
    it once, in every state of the store (missing, without a match, with
    several matches) and for every selection. *)
Theorem confirm_delete_idempotent (filtered : list Annotated) (selected_idx : nat)
    (w : World) :
  snd (confirm_delete filtered selected_idx
         (snd (confirm_delete filtered selected_idx w))) =
  snd (confirm_delete filtered selected_idx w).
Proof.
  destruct (confirm_delete_cases filtered selected_idx w)
    as [(row & table & Hrow & Hw & H1) | [(Hw & H1) | (Hw & Hrow & H1)]];
    rewrite H1; cbn [snd]; try (rewrite H1; reflexivity).
  run_delete Hrow.
  cbn [snd manual_data]. rewrite delete_matching_twice. reflexivity.
Qed.

(** X7. Two deletions commute: on an existing store, deleting the rows
    that match one selected row and then those that match another leaves
    the same world as deleting them in the other order. *)
Theorem confirm_delete_commute (filtered : list Annotated) (i j : nat)
    (row_i row_j : Annotated) (w : World) (table : list InventoryRecord) :
  nth_error filtered i = Some row_i ->
  nth_error filtered j = Some row_j ->
  mock_inventory_csv w = Some table ->
  snd (confirm_delete filtered j (snd (confirm_delete filtered i w))) =
  snd (confirm_delete filtered i (snd (confirm_delete filtered j w))).
Proof.
  intros Hi Hj Hw.
  rewrite (confirm_delete_run filtered i row_i w table Hi Hw).
  rewrite (confirm_delete_run filtered j row_j w table Hj Hw). cbn [snd].
  run_delete Hj. run_delete Hi.
  cbn [snd manual_data]. unfold delete_matching. rewrite filter_filter_comm. reflexivity.
Qed.

Lemma confirm_delete_commute_witness :
  let filtered := [sample_selected;
                   mkAnnotated (mkPredicted (mkLoaded
                     (sample_record "Bread" "Bakery" "S02" 40 30 20003) 3) 30) "LOW"] in
  snd (confirm_delete filtered 1 (snd (confirm_delete filtered 0 sample_world))) =
  snd (confirm_delete filtered 0 (snd (confirm_delete filtered 1 sample_world))).
Proof.
  intros filtered.
  exact (confirm_delete_commute filtered 0 1 _ _ sample_world sample_store
           eq_refl eq_refl eq_refl).
Defined.

(** ** The form handler *)





(** ** The labels of the delete selector *)

Lemma normalize_date_of (t : Timestamp) : normalize t = date_of t * day_ns.
Proof.
  unfold normalize, date_of.
  pose proof (Z.div_mod t day_ns ltac:(discriminate)) as E. unfold day_ns in *. lia.
Qed.

(** X10. The selector cannot tell apart the rows one deletion removes:
    every row of the store that the delete handler removes carries the
    label of the selected row, whatever the other fields of the two rows
    (stock, sales, weather, holiday flag, time of day of the expiry). *)
Theorem deleted_rows_share_label (isoformat : Z -> string)
    (filtered : list Annotated) (selected_idx : nat) (row : Annotated) (w : World)
    (table table' : list InventoryRecord) (r : InventoryRecord) :
  nth_error filtered selected_idx = Some row ->
  mock_inventory_csv w = Some table ->
  mock_inventory_csv (snd (confirm_delete filtered selected_idx w)) = Some table' ->
  In r table -> ~ In r table' ->
  Label isoformat r = Label isoformat row.
Proof.
  intros Hrow Hw Hw' Hin Hout.
  rewrite (confirm_delete_run filtered selected_idx row w table Hrow Hw) in Hw'.
  cbn [snd mock_inventory_csv] in Hw'. injection Hw' as <-.
  assert (Hid : identity r = identity row).
  { destruct (condition row r) eqn:Hc; [apply condition_identity, Hc |].
    exfalso. apply Hout. unfold delete_matching. apply filter_In.
    split; [exact Hin | rewrite Hc; reflexivity]. }
  unfold identity in Hid. injection Hid as Hp Hc Hs He.
  rewrite !normalize_date_of in He.
  assert (Hd : date_of (ExpiryDate r) = date_of (ExpiryDate row))
    by (unfold day_ns in He; lia).
  unfold Label. rewrite Hp, Hc, Hs, Hd. reflexivity.
Qed.

Lemma deleted_rows_share_label_witness :
  Label (fun d => if d =? 20000 then "2024-10-04" else "another day")
        (sample_record "Milk" "Dairy" "S01" 10 5 20000) =
  Label (fun d => if d =? 20000 then "2024-10-04" else "another day") sample_selected.
Proof.
  refine (deleted_rows_share_label _ [sample_selected] 0 sample_selected sample_world
            sample_store [sample_record "Bread" "Bakery" "S02" 40 30 20003]
            (sample_record "Milk" "Dairy" "S01" 10 5 20000)
            eq_refl eq_refl eq_refl _ _).
  - right. right. left. reflexivity.
  - cbn. intros [H | []]. discriminate H.
Defined.

(** ** The encoder of a fitted model *)

Lemma insert_sorted_In (s x : string) (l : list string) :
  In x (insert_sorted s l) <-> x = s \/ In x l.
Proof.
  induction l as [| y t IH]; cbn [insert_sorted In]; [intuition congruence |].
  destruct (String.compare s y) eqn:Hc; cbn [In].
  - apply String.compare_eq_iff in Hc. subst y. intuition congruence.
  - intuition congruence.
  - rewrite IH. intuition congruence.
Qed.

Lemma np_unique_sorted_In (l : list string) (x : string) :
  In x (np_unique_sorted l) <-> In x l.
Proof.
  induction l as [| y t IH]; cbn [np_unique_sorted fold_right In]; [reflexivity |].
  fold (np_unique_sorted t). rewrite insert_sorted_In, IH. intuition congruence.
Qed.

Lemma insert_sorted_sorted (s : string) (l : list string) :
  StronglySorted (fun a b => String.compare a b = Lt) l ->
  StronglySorted (fun a b => String.compare a b = Lt) (insert_sorted s l).
Proof.
  induction 1 as [| y t Hs IH Hy]; cbn [insert_sorted].
  - constructor; constructor.
  - destruct (String.compare s y) eqn:Hc.
    + constructor; assumption.
    + constructor; [constructor; assumption |].
      constructor; [exact Hc |].
      eapply Forall_impl; [| exact Hy]. intros z Hz. exact (compare_lt_trans _ _ _ Hc Hz).
    + constructor; [exact IH |].
      apply Forall_forall. intros z Hz. apply insert_sorted_In in Hz as [-> | Hz].
      * rewrite String.compare_antisym, Hc. reflexivity.
      * exact (proj1 (Forall_forall _ _) Hy z Hz).
Qed.

Lemma np_unique_sorted_sorted (l : list string) :
  StronglySorted (fun a b => String.compare a b = Lt) (np_unique_sorted l).
Proof.
  induction l as [| y t IH]; cbn [np_unique_sorted fold_right]; [constructor |].
  apply insert_sorted_sorted, IH.
Qed.

Lemma train_model_encoder lstsq (df : list Loaded) (model : Model) :
  train_model lstsq df = Ok model -> preprocessor model = fit_encoder df.
Proof.
  unfold train_model. destruct df as [| r t]; [discriminate |].
  destruct (numeric_target (r :: t)) as [y | e]; [| discriminate].
  destruct (lstsq _ y) as [coef intercept]. intros [= <-]. reflexivity.
Qed.

Lemma fit_encoder_categories (df : list Loaded) :
  let enc := fit_encoder df in
  (forall v, In v (categories_Category enc) <-> exists r : Loaded, In r df /\ Category r = v) /\
  (forall v, In v (categories_StoreID enc) <-> exists r : Loaded, In r df /\ StoreID r = v) /\
  (forall v, In v (categories_Weather enc) <-> exists r : Loaded, In r df /\ Weather r = v) /\
  StronglySorted (fun a b => String.compare a b = Lt) (categories_Category enc) /\
  StronglySorted (fun a b => String.compare a b = Lt) (categories_StoreID enc) /\
  StronglySorted (fun a b => String.compare a b = Lt) (categories_Weather enc).
Proof.
  cbv zeta. unfold fit_encoder.
  cbn [categories_Category categories_StoreID categories_Weather].
  repeat split; try apply np_unique_sorted_sorted;
    try (intros Hv; apply np_unique_sorted_In, in_map_iff in Hv as (r & <- & Hr);
         exists r; split; [exact Hr | reflexivity]);
    intros (r & Hr & <-); apply np_unique_sorted_In, in_map_iff; exists r;
    (split; [reflexivity | exact Hr]).
Qed.

(** X11. After a successful fit, the categories of each encoded column
    (Category, StoreID, Weather) are exactly the values the column takes in
    the training table, each listed once, in increasing string order. *)
Theorem train_model_categories lstsq (df : list Loaded) (model : Model) :
  train_model lstsq df = Ok model ->
  let enc := preprocessor model in
  (forall v, In v (categories_Category enc) <-> exists r : Loaded, In r df /\ Category r = v) /\
  (forall v, In v (categories_StoreID enc) <-> exists r : Loaded, In r df /\ StoreID r = v) /\
  (forall v, In v (categories_Weather enc) <-> exists r : Loaded, In r df /\ Weather r = v) /\
  StronglySorted (fun a b => String.compare a b = Lt) (categories_Category enc) /\
  StronglySorted (fun a b => String.compare a b = Lt) (categories_StoreID enc) /\
  StronglySorted (fun a b => String.compare a b = Lt) (categories_Weather enc).
Proof.
  intros Hfit. cbv zeta. rewrite (train_model_encoder _ _ _ Hfit).
  apply fit_encoder_categories.
Qed.

Lemma train_model_categories_witness :
  exists model,
    train_model constant_design_solver
      (with_days midnight sample_store) = Ok model /\
    categories_Category (preprocessor model) = ["Bakery"; "Dairy"] /\
    StronglySorted (fun a b => String.compare a b = Lt)
      (categories_Category (preprocessor model)).
Proof.
  eexists. split; [reflexivity |]. split; [reflexivity |].
  exact (proj1 (proj2 (proj2 (proj2
    (train_model_categories constant_design_solver (with_days midnight sample_store)
       _ eq_refl))))).
Defined.

Lemma one_hot_seen (categories : list string) (v : string) :
  StronglySorted (fun a b => String.compare a b = Lt) categories ->
  In v categories ->
  exists i, nth_error categories i = Some v /\
            one_hot categories v = indicator (List.length categories) i.
Proof.
  induction 1 as [| c t Hs IH Hc]; cbn [In]; [contradiction |].
  intros Hin. cbn [one_hot map List.length].
  destruct (String.eqb_spec c v) as [-> | Hne].
  - exists 0%nat. split; [reflexivity |].
    unfold indicator. cbn [repeat app].
    replace (S (List.length t) - 1)%nat with (List.length t) by lia. f_equal.
    apply one_hot_unseen. intros Hv.
    pose proof (proj1 (Forall_forall _ _) Hc v Hv) as Hlt. cbv beta in Hlt.
    pose proof (proj2 (String_as_OT.cmp_eq v v) eq_refl) as Heq.
    unfold String_as_OT.cmp in Heq. congruence.
  - destruct Hin as [Heq | Hin]; [contradiction |].
    destruct (IH Hin) as (i & Hnth & Hhot). exists (S i). split; [exact Hnth |].
    fold (one_hot t v). rewrite Hhot. reflexivity.
Qed.

(** X12. After a successful fit, every row of the training table is
    encoded with exactly one indicator set in each of the three blocks, at
    the position of its own Category, StoreID and Weather in the fitted
    categories, followed by its HolidayFlag. *)
Theorem train_model_one_hot lstsq (df : list Loaded) (model : Model) (r : Loaded) :
  train_model lstsq df = Ok model -> In r df ->
  let enc := preprocessor model in
  exists i j k,
    nth_error (categories_Category enc) i = Some (Category r) /\
    nth_error (categories_StoreID enc) j = Some (StoreID r) /\
    nth_error (categories_Weather enc) k = Some (Weather r) /\
    transform enc r =
      indicator (List.length (categories_Category enc)) i
      ++ indicator (List.length (categories_StoreID enc)) j
      ++ indicator (List.length (categories_Weather enc)) k
      ++ [F64.of_Z (HolidayFlag r)].
Proof.
  intros Hfit Hr. cbv zeta. rewrite (train_model_encoder _ _ _ Hfit).
  destruct (fit_encoder_categories df) as (HC & HS & HW & SC & SS & SW).
  destruct (one_hot_seen _ (Category r) SC (proj2 (HC _) (ex_intro _ r (conj Hr eq_refl))))
    as (i & Hi & Ei).
  destruct (one_hot_seen _ (StoreID r) SS (proj2 (HS _) (ex_intro _ r (conj Hr eq_refl))))
    as (j & Hj & Ej).
  destruct (one_hot_seen _ (Weather r) SW (proj2 (HW _) (ex_intro _ r (conj Hr eq_refl))))
    as (k & Hk & Ek).
  exists i, j, k. unfold transform. rewrite Ei, Ej, Ek. repeat split; assumption.
Qed.

Lemma train_model_one_hot_witness :
  exists i j k,
    nth_error ["Bakery"; "Dairy"] i = Some "Dairy" /\
    nth_error ["S01"; "S02"] j = Some "S01" /\
    nth_error ["Sunny"] k = Some "Sunny" /\
    transform (fit_encoder (with_days midnight sample_store))
              (sample_record "Milk" "Dairy" "S01" 100 50 20000) =
      indicator 2 i ++ indicator 2 j ++ indicator 1 k ++ [F64.of_Z 0].
Proof.
  exact (train_model_one_hot constant_design_solver (with_days midnight sample_store) _
           (mkLoaded (sample_record "Milk" "Dairy" "S01" 100 50 20000)
                     (days (20000 * day_ns - midnight)))
           eq_refl (or_introl eq_refl)).
Defined.

(** ** More on the risk classifier *)

Lemma SFleb_ltb_trans (a b c : spec_float) :
  SFleb a b = true -> SFltb b c = true -> SFltb a c = true.
Proof.
  unfold SFltb, SFleb.
  destruct a as [[] | [] | | [] m1 e1], b as [[] | [] | | [] m2 e2], c as [[] | [] | | [] m3 e3];
    cbn [SFcompare]; intros H1 H2; try discriminate; try reflexivity;
    rewrite ?pos_compare_cont_Eq in *;
    destruct (Z.compare_spec e1 e2), (Z.compare_spec e2 e3), (Z.compare_spec e1 e3);
    try discriminate; try reflexivity; try lia;
    destruct (Pos.compare_spec m1 m2), (Pos.compare_spec m2 m3), (Pos.compare_spec m1 m3);
    cbn [CompOpp] in *; try discriminate; try reflexivity; lia.
Qed.

Lemma demand_below_mono (k : float) (r1 r2 : Predicted) :
  (PredictedDemand r1 <=? PredictedDemand r2)%float = true ->
  StockQty r1 = StockQty r2 ->
  demand_below k r2 = true -> demand_below k r1 = true.
Proof.
  unfold demand_below. intros Hle Hs H. rewrite Hs.
  rewrite ltb_spec in *. rewrite leb_spec in Hle.
  exact (SFleb_ltb_trans _ _ _ Hle H).
Qed.

(** X13. The risk level never rises with the predicted demand: of two
    rows with the same StockQty and DaysToExpire, the one whose
    PredictedDemand is not larger has a level at least as severe (LOW <
    MEDIUM < HIGH), whatever the sign of the stock. *)
Theorem classify_risk_antitone_in_demand (df1 df2 : list Predicted) (a1 a2 : Annotated) :
  In a1 (classify_risk df1) -> In a2 (classify_risk df2) ->
  (PredictedDemand a1 <=? PredictedDemand a2)%float = true ->
  StockQty a1 = StockQty a2 ->
  DaysToExpire a1 = DaysToExpire a2 ->
  (risk_rank (RiskLevel a2) <= risk_rank (RiskLevel a1))%nat.
Proof.
  intros H1 H2.
  apply in_map_iff in H1 as (r1 & <- & _). apply in_map_iff in H2 as (r2 & <- & _).
  cbn [predicted RiskLevel]. intros Hle Hs Hd.
  pose proof (demand_below_mono 0.7 r1 r2 Hle Hs) as M7.
  pose proof (demand_below_mono 0.9 r1 r2 Hle Hs) as M9.
  unfold conditions, choices. rewrite Hd. cbn [np_select].
  destruct (demand_below 0.7 r2); [rewrite (M7 eq_refl) |];
    (destruct (demand_below 0.9 r2); [rewrite (M9 eq_refl) |]);
    destruct (demand_below 0.7 r1), (demand_below 0.9 r1),
             (DaysToExpire r2 <? 5), (5 <=? DaysToExpire r2), (DaysToExpire r2 <? 8);
    cbn; lia.
Qed.

Lemma classify_risk_antitone_in_demand_witness :
  (risk_rank (RiskLevel (nth 0 (classify_risk [sample_row "Milk" "Dairy" 95 100 3])
                               sample_selected))
   <= risk_rank (RiskLevel (nth 0 (classify_risk [sample_row "Jam" "Condiments" 65 100 3])
                                  sample_selected)))%nat.
Proof.
  apply (classify_risk_antitone_in_demand
           [sample_row "Jam" "Condiments" 65 100 3] [sample_row "Milk" "Dairy" 95 100 3]).
  - left. reflexivity.
  - left. reflexivity.
  - reflexivity.
  - reflexivity.
  - reflexivity.
Defined.

(** X14. A row whose predicted demand is not below 0.9 of its
    (non-negative) stock is never HIGH: it is MEDIUM when 5 to 7 days
    remain and LOW otherwise, so that an item with such a demand that
    expires within 4 days, or has already expired, is LOW. *)
Theorem classify_risk_adequate_demand (df : list Predicted) (a : Annotated) :
  In a (classify_risk df) ->
  0 <= StockQty a -> demand_below 0.9 a = false ->
  RiskLevel a = (if (5 <=? DaysToExpire a) && (DaysToExpire a <? 8) then "MEDIUM" else "LOW")
  /\ (DaysToExpire a < 5 -> RiskLevel a = "LOW").
Proof.
  intros Hin. apply in_map_iff in Hin as (r & <- & _).
  cbn [predicted RiskLevel]. intros Hs H9.
  assert (H7 : demand_below 0.7 r = false).
  { destruct (demand_below 0.7 r) eqn:E; [| reflexivity].
    rewrite (demand_threshold_mono r Hs E) in H9. discriminate. }
  unfold conditions, choices. rewrite H7, H9. cbn [np_select andb orb].
  split; [reflexivity |].
  intros Hd. destruct (Z.leb_spec 5 (DaysToExpire r)); [lia | reflexivity].
Qed.

Lemma classify_risk_adequate_demand_witness :
  RiskLevel (nth 0 (classify_risk [sample_row "Milk" "Dairy" 95 100 (-2)]) sample_selected)
  = "LOW".
Proof.
  apply (classify_risk_adequate_demand [sample_row "Milk" "Dairy" 95 100 (-2)]).
  - left. reflexivity.
  - cbn. lia.
  - reflexivity.
  - cbn. lia.
Defined.

(** ** The at-risk table, the high-risk table and the KPIs *)

Lemma at_risk_In (filtered : list Annotated) (r : Annotated) :
  In r (at_risk filtered) <->
  In r filtered /\ (RiskLevel r = "HIGH" \/ RiskLevel r = "MEDIUM").
Proof.
  unfold at_risk.
  transitivity (In r (filter (fun r => isin (RiskLevel r) ["HIGH"; "MEDIUM"]) filtered)).
  - split; apply Permutation_in;
      [apply sort_values_perm | apply Permutation_sym, sort_values_perm].
  - rewrite filter_In, isin_In. cbn [In]. intuition congruence.
Qed.

Lemma at_risk_sorted (filtered : list Annotated) :
  StronglySorted tier_then_days (at_risk filtered).
Proof.
  apply StronglySorted_on
    with (P := fun r => RiskLevel r = "HIGH" \/ RiskLevel r = "MEDIUM")
         (R := fun a b => sort_key_leb a b = true).
  - exact sort_key_on_tiers.
  - apply Forall_forall. intros r Hr. apply at_risk_In in Hr. tauto.
  - apply sort_values_sorted.
Qed.

Lemma filter_none {A} (f : A -> bool) (l : list A) :
  (forall x, In x l -> f x = false) -> filter f l = [].
Proof.
  induction l as [| x t IH]; intros H; cbn [filter]; [reflexivity |].
  rewrite (H x (or_introl eq_refl)). apply IH. intros y Hy. apply H. right. exact Hy.
Qed.

Lemma tiers_split (l : list Annotated) :
  StronglySorted tier_then_days l ->
  Forall (fun r => RiskLevel r = "HIGH" \/ RiskLevel r = "MEDIUM") l ->
  l = filter (fun r : Annotated => String.eqb (RiskLevel r) "HIGH") l
      ++ filter (fun r : Annotated => String.eqb (RiskLevel r) "MEDIUM") l.
Proof.
  induction 1 as [| x t Hs IH Hx]; intros Hl; [reflexivity |].
  apply Forall_cons_iff in Hl as [[Hh | Hm] Ht]; cbn [filter]; rewrite ?Hh, ?Hm; cbn.
  - f_equal. apply IH, Ht.
  - assert (Hall : forall y, In y t -> RiskLevel y = "MEDIUM").
    { intros y Hy. pose proof (proj1 (Forall_forall _ _) Hx y Hy) as [[Hc _] | [Hc _]];
        congruence. }
    rewrite filter_none, filter_all; [reflexivity | |].
    + intros y Hy. rewrite (Hall y Hy). reflexivity.
    + intros y Hy. rewrite (Hall y Hy). reflexivity.
Qed.

Lemma filter_perm {A} (f : A -> bool) (l l' : list A) :
  Permutation l l' -> Permutation (filter f l) (filter f l').
Proof.
  induction 1 as [| x l l' _ IH | x y l | l l' l'' _ IH1 _ IH2]; cbn [filter].
  - constructor.
  - destruct (f x); [constructor |]; exact IH.
  - destruct (f x), (f y); try reflexivity. apply perm_swap.
  - exact (Permutation_trans IH1 IH2).
Qed.

Lemma filter_filter_implied {A} (f g : A -> bool) (l : list A) :
  (forall x, f x = true -> g x = true) -> filter f (filter g l) = filter f l.
Proof.
  intros H. induction l as [| x t IH]; [reflexivity |]. cbn [filter].
  destruct (g x) eqn:Hg; cbn [filter].
  - rewrite IH. reflexivity.
  - destruct (f x) eqn:Hf; [rewrite (H x Hf) in Hg; discriminate | exact IH].
Qed.

Lemma risk_count_at_risk (level : string) (filtered : list Annotated) :
  level = "HIGH" \/ level = "MEDIUM" ->
  risk_count level (at_risk filtered) = risk_count level filtered.
Proof.
  intros Hl. unfold risk_count, at_risk.
  rewrite (Permutation_length (filter_perm _ _ _ (sort_values_perm _))).
  rewrite filter_filter_implied; [reflexivity |].
  intros x Hx. apply String.eqb_eq in Hx. rewrite Hx. apply isin_In.
  destruct Hl as [-> | ->]; [left | right; left]; reflexivity.
Qed.

Lemma StronglySorted_filter {A} (R : A -> A -> Prop) (f : A -> bool) (l : list A) :
  StronglySorted R l -> StronglySorted R (filter f l).
Proof.
  induction 1 as [| x t Hs IH Hx]; cbn [filter]; [constructor |].
  destruct (f x); [| exact IH].
  constructor; [exact IH |].
  apply Forall_forall. intros y Hy. apply filter_In in Hy as [Hy _].
  exact (proj1 (Forall_forall _ _) Hx y Hy).
Qed.

(** X15. The high-risk table is the leading part of the at-risk table:
    the at-risk table is its HIGH rows followed by its MEDIUM rows; the
    high-risk table lists the HIGH rows of the filtered table in ascending
    DaysToExpire and has as many rows as the High Risk KPI counts. *)
Theorem high_risk_items_spec (filtered : list Annotated) :
  at_risk filtered =
    high_risk_items (at_risk filtered)
    ++ filter (fun r : Annotated => String.eqb (RiskLevel r) "MEDIUM") (at_risk filtered) /\
  (forall r, In r (high_risk_items (at_risk filtered)) <->
             In r filtered /\ RiskLevel r = "HIGH") /\
  StronglySorted (fun a b : Annotated => DaysToExpire a <= DaysToExpire b)
                 (high_risk_items (at_risk filtered)) /\
  List.length (high_risk_items (at_risk filtered)) = risk_count "HIGH" filtered.
Proof.
  split; [| split; [| split]].
  - apply tiers_split; [apply at_risk_sorted |].
    apply Forall_forall. intros r Hr. apply at_risk_In in Hr. tauto.
  - intros r. unfold high_risk_items. rewrite filter_In, at_risk_In, String.eqb_eq.
    intuition congruence.
  - unfold high_risk_items.
    apply StronglySorted_on
      with (P := fun r : Annotated => RiskLevel r = "HIGH") (R := tier_then_days).
    + intros a b Ha Hb [[_ Hm] | [_ Hd]]; [congruence | exact Hd].
    + apply Forall_forall. intros r Hr. apply filter_In in Hr as [_ Hr].
      apply String.eqb_eq, Hr.
    + apply StronglySorted_filter, at_risk_sorted.
  - exact (risk_count_at_risk "HIGH" filtered (or_introl eq_refl)).
Qed.

Lemma risk_count_split (l : list Annotated) :
  List.length (filter (fun r => isin (RiskLevel r) ["HIGH"; "MEDIUM"]) l) =
  (risk_count "HIGH" l + risk_count "MEDIUM" l)%nat.
Proof.
  unfold risk_count. induction l as [| x t IH]; [reflexivity |].
  cbn [filter].
  assert (E : isin (RiskLevel x) ["HIGH"; "MEDIUM"] =
              String.eqb (RiskLevel x) "HIGH" || String.eqb (RiskLevel x) "MEDIUM")
    by (unfold isin; cbn [existsb]; rewrite orb_false_r; reflexivity).
  rewrite E.
  destruct (String.eqb_spec (RiskLevel x) "HIGH") as [Hh | Hh],
           (String.eqb_spec (RiskLevel x) "MEDIUM") as [Hm | Hm];
    try congruence; cbn [orb List.length]; rewrite IH; lia.
Qed.

Lemma filtered_df_In (df : list Annotated) (selected_category : list string)
    (r : Annotated) :
  In r (filtered_df df selected_category) -> In r df.
Proof.
  unfold filtered_df. destruct selected_category; [tauto |].
  intros H. apply filter_In in H. apply H.
Qed.

Lemma count_three_levels (l : list Annotated) :
  Forall (fun r => RiskLevel r = "HIGH" \/ RiskLevel r = "MEDIUM" \/ RiskLevel r = "LOW") l ->
  (risk_count "HIGH" l + risk_count "MEDIUM" l + risk_count "LOW" l)%nat = List.length l.
Proof.
  unfold risk_count. induction 1 as [| x t Hx _ IH]; [reflexivity |].
  cbn [filter List.length].
  destruct Hx as [Hx | [Hx | Hx]]; rewrite Hx; cbn; lia.
Qed.

(** X16. On the table the page shows (the classified rows that pass the
    category filter), the KPIs add up: High Risk plus Medium Risk is the
    number of rows of the at-risk table, and together with the rows
    labelled LOW they make up Total Products. *)
Theorem kpis_add_up (df : list Predicted) (selected_category : list string) :
  let filtered := filtered_df (classify_risk df) selected_category in
  (risk_count "HIGH" filtered + risk_count "MEDIUM" filtered)%nat
    = List.length (at_risk filtered) /\
  (risk_count "HIGH" filtered + risk_count "MEDIUM" filtered
   + risk_count "LOW" filtered)%nat = total_products filtered.
Proof.
  cbv zeta. split.
  - unfold at_risk. rewrite (Permutation_length (sort_values_perm _)).
    symmetry. apply risk_count_split.
  - apply count_three_levels. apply Forall_forall. intros a Ha.
    apply filtered_df_In, in_map_iff in Ha as (r & <- & _).
    cbn [RiskLevel]. unfold conditions, choices. cbn [np_select].
    destruct (_ && _); [left; reflexivity |].
    destruct (_ || _); [right; left | right; right]; reflexivity.
Qed.

(** ** The suggestion cards *)

Lemma range_from_chunks {A} (l : list A) (fuel i : nat) :
  (List.length l <= fuel + i)%nat ->
  List.concat (map (fun j => iloc l j (j + 3)) (range_from fuel i (List.length l) 3)) =
  skipn i l.
Proof.
  revert i. induction fuel as [| fuel IH]; intros i Hlen; cbn [range_from].
  - cbn [map List.concat]. symmetry. apply skipn_all2. lia.
  - destruct (Nat.ltb_spec i (List.length l)) as [Hlt | Hge].
    + cbn [map List.concat]. rewrite IH by lia. unfold iloc.
      replace (i + 3 - i)%nat with 3%nat by lia.
      replace (i + 3)%nat with (3 + i)%nat by lia.
      rewrite <- skipn_skipn. apply firstn_skipn.
    + cbn [map List.concat]. symmetry. apply skipn_all2. lia.
Qed.

Lemma range_from_bound (fuel i stop step : nat) (j : nat) :
  In j (range_from fuel i stop step) -> (j < stop)%nat.
Proof.
  revert i. induction fuel as [| fuel IH]; intros i; cbn [range_from]; [contradiction |].
  destruct (Nat.ltb_spec i stop); [| contradiction].
  intros [<- | Hin]; [assumption | exact (IH _ Hin)].
Qed.

Lemma zip_columns_rows (chunk : list Annotated) :
  (List.length chunk <= 3)%nat ->
  map card_row
      (map (fun cr : nat * Annotated =>
              {| card_col := fst cr; card_row := snd cr;
                 card_class := risk_class (RiskLevel (snd cr)) |})
           (combine (seq 0 3) chunk)) = chunk /\
  map card_col
      (map (fun cr : nat * Annotated =>
              {| card_col := fst cr; card_row := snd cr;
                 card_class := risk_class (RiskLevel (snd cr)) |})
           (combine (seq 0 3) chunk)) = seq 0 (List.length chunk).
Proof.
  destruct chunk as [| a [| b [| c [| d t]]]]; cbn; intros H; try lia; split; reflexivity.
Qed.

Lemma iloc_length {A} (l : list A) (i : nat) :
  (i < List.length l)%nat ->
  (1 <= List.length (iloc l i (i + 3)) <= 3)%nat.
Proof.
  intros Hi. unfold iloc. rewrite length_firstn, length_skipn. lia.
Qed.

(** X17. Every row of the at-risk table gets exactly one suggestion card,
    and the cards read row by row are the table in its order: each page
    row holds between one and three cards, placed in the columns from the
    left without a gap; the "no suggestions" message appears exactly when
    the table is empty. *)
Theorem suggestions_cover (at_risk_rows : list Annotated) :
  match suggestions at_risk_rows with
  | st_info_no_suggestions => at_risk_rows = []
  | cards rows =>
      at_risk_rows <> [] /\
      List.concat (map (map card_row) rows) = at_risk_rows /\
      Forall (fun row : list Card =>
                (1 <= List.length row <= 3)%nat /\
                map card_col row = seq 0 (List.length row)) rows
  end.
Proof.
  unfold suggestions. destruct at_risk_rows as [| a t] eqn:E; [reflexivity |].
  rewrite <- E. assert (Hne : at_risk_rows <> []) by (rewrite E; discriminate).
  clear E. split; [exact Hne |].
  assert (Hchunk : forall j, In j (range 0 (List.length at_risk_rows) 3) ->
            (1 <= List.length (iloc at_risk_rows j (j + 3)) <= 3)%nat).
  { intros j Hj. apply iloc_length. exact (range_from_bound _ _ _ _ _ Hj). }
  split.
  - rewrite map_map.
    rewrite (map_ext_in _ (fun j => iloc at_risk_rows j (j + 3))).
    + unfold range. rewrite range_from_chunks by lia. reflexivity.
    + intros j Hj. apply zip_columns_rows. apply Hchunk, Hj.
  - apply Forall_forall. intros row Hrow. apply in_map_iff in Hrow as (j & <- & Hj).
    specialize (Hchunk j Hj).
    destruct (zip_columns_rows (iloc at_risk_rows j (j + 3)) ltac:(lia)) as [Hrows Hcols].
    split; [| rewrite Hcols, !length_map, length_combine; cbn [seq List.length]; f_equal; lia].
    rewrite !length_map, length_combine. cbn [seq List.length]. lia.
Qed.

Lemma iloc_In {A} (l : list A) (i j : nat) (x : A) : In x (iloc l i j) -> In x l.
Proof.
  unfold iloc. intros H.
  rewrite <- (firstn_skipn i l). apply in_or_app. right.
  rewrite <- (firstn_skipn (j - i) (skipn i l)). apply in_or_app. left. exact H.
Qed.

(** X18. No card of an at-risk table is drawn with the low-risk style:
    the class of every card is risk-high when its row is HIGH and
    risk-medium when its row is MEDIUM, and its row is one of the two. *)
Theorem suggestion_card_class (filtered : list Annotated) (rows : list (list Card))
    (row : list Card) (card : Card) :
  suggestions (at_risk filtered) = cards rows ->
  In row rows -> In card row ->
  (RiskLevel (card_row card) = "HIGH" /\ card_class card = "risk-high") \/
  (RiskLevel (card_row card) = "MEDIUM" /\ card_class card = "risk-medium").
Proof.
  intros Hs Hrow Hcard.
  assert (Hclass : card_class card = risk_class (RiskLevel (card_row card)) /\
                   In (card_row card) (at_risk filtered)).
  { unfold suggestions in Hs. destruct (at_risk filtered) as [| a t] eqn:E; [discriminate |].
    rewrite <- E in *. injection Hs as <-.
    apply in_map_iff in Hrow as (j & <- & _).
    apply in_map_iff in Hcard as ([col r] & <- & Hin). cbn [card_class card_row fst snd].
    split; [reflexivity |].
    change (In (col, r) (combine (seq 0 3) (iloc (at_risk filtered) j (j + 3)))) in Hin.
    apply in_combine_r in Hin. exact (iloc_In _ _ _ _ Hin). }
  destruct Hclass as [-> Hin]. apply at_risk_In in Hin as [_ [H | H]]; rewrite H;
    [left | right]; split; reflexivity.
Qed.

Lemma suggestion_card_class_witness :
  let card := mkCard 0 (mkAnnotated (sample_row "Milk" "Dairy" 65 100 3) "HIGH")
                     "risk-high" in
  (RiskLevel (card_row card) = "HIGH" /\ card_class card = "risk-high") \/
  (RiskLevel (card_row card) = "MEDIUM" /\ card_class card = "risk-medium").
Proof.
  intros card.
  exact (suggestion_card_class
           (classify_risk [sample_row "Milk" "Dairy" 65 100 3;
                           sample_row "Jam" "Condiments" 95 100 20])
           _ _ card eq_refl (or_introl eq_refl) (or_introl eq_refl)).
Defined.

(** Four at-risk rows are drawn as a page row of three cards and a page
    row of one. *)
Example suggestions_example :
  match suggestions (at_risk (classify_risk [sample_row "Rolls" "Bakery" 85 100 20;
                                             sample_row "Milk" "Dairy" 65 100 3;
                                             sample_row "Tea" "Beverages" 95 100 6;
                                             sample_row "Bread" "Bakery" 60 100 1])) with
  | cards rows =>
      map (map (fun c => (card_col c, Product (card_row c), card_class c))) rows =
      [ [(0%nat, "Bread", "risk-high"); (1%nat, "Milk", "risk-high");
         (2%nat, "Tea", "risk-medium")];
        [(0%nat, "Rolls", "risk-medium")] ]
  | st_info_no_suggestions => False
  end.
Proof. vm_compute. reflexivity. Qed.

(** ** The category filter, once more *)


(** ** What the demand model reads *)

Lemma numeric_target_features (df1 df2 : list Loaded) :
  map (fun r : Loaded => WeeklySales r) df1 = map (fun r : Loaded => WeeklySales r) df2 ->
  numeric_target df1 = numeric_target df2.
Proof.
  revert df2. induction df1 as [| r1 t1 IH]; intros [| r2 t2] H; cbn [map] in H;
    try discriminate; [reflexivity |].
  injection H as Hr Ht. cbn [numeric_target]. rewrite Hr, (IH t2 Ht). reflexivity.
Qed.

Lemma transform_features (enc : Encoder) (r1 r2 : InventoryRecord) :
  features r1 = features r2 -> transform enc r1 = transform enc r2.
Proof.
  unfold features, transform. intros [= -> -> -> ->]. reflexivity.
Qed.

Lemma map_features {B} (g : string * string * string * Z -> B) (df1 df2 : list Loaded) :
  map (fun r : Loaded => features r) df1 = map (fun r : Loaded => features r) df2 ->
  map (fun r : Loaded => g (features r)) df1 = map (fun r : Loaded => g (features r)) df2.
Proof.
  intros H.
  rewrite <- (map_map (fun r : Loaded => features r) g df1).
  rewrite <- (map_map (fun r : Loaded => features r) g df2).
  rewrite H. reflexivity.
Qed.

Lemma cons_eq {A} (x y : A) (l l' : list A) : x :: l = y :: l' -> x = y /\ l = l'.
Proof. intros [= -> ->]. split; reflexivity. Qed.

Lemma design_features (enc : Encoder) (df1 df2 : list Loaded) :
  map (fun r : Loaded => features r) df1 = map (fun r : Loaded => features r) df2 ->
  map (fun r : Loaded => transform enc r) df1 = map (fun r : Loaded => transform enc r) df2.
Proof.
  revert df2. induction df1 as [| r1 t1 IH]; intros [| r2 t2] H; cbn [map] in H;
    try discriminate; [reflexivity |].
  apply cons_eq in H as [Hr Ht]. cbn [map].
  rewrite (transform_features enc r1 r2 Hr), (IH t2 Ht). reflexivity.
Qed.

(** X20. The demand model reads the four feature columns and the target
    only: two tables that agree row by row on Category, StoreID, Weather,
    HolidayFlag and WeeklySales are fitted to the same model (or fail
    alike), and under any model two rows with the same four features get
    the same PredictedDemand, whatever their Product, StockQty, ExpiryDate
    and DaysToExpire. *)
Theorem demand_model_reads_features lstsq (df1 df2 : list Loaded) :
  map (fun r : Loaded => features r) df1 = map (fun r : Loaded => features r) df2 ->
  map (fun r : Loaded => WeeklySales r) df1 = map (fun r : Loaded => WeeklySales r) df2 ->
  train_model lstsq df1 = train_model lstsq df2 /\
  (forall model,
     map (fun p : Predicted => PredictedDemand p) (apply_predictions df1 model) =
     map (fun p : Predicted => PredictedDemand p) (apply_predictions df2 model)).
Proof.
  intros Hf Hy. split.
  - unfold train_model, fit_encoder.
    rewrite (numeric_target_features df1 df2 Hy).
    assert (HC : map (fun r : Loaded => Category r) df1 =
                 map (fun r : Loaded => Category r) df2)
      by exact (map_features (fun x => fst (fst (fst x))) df1 df2 Hf).
    assert (HS : map (fun r : Loaded => StoreID r) df1 =
                 map (fun r : Loaded => StoreID r) df2)
      by exact (map_features (fun x => snd (fst (fst x))) df1 df2 Hf).
    assert (HW : map (fun r : Loaded => Weather r) df1 =
                 map (fun r : Loaded => Weather r) df2)
      by exact (map_features (fun x => snd (fst x)) df1 df2 Hf).
    rewrite HC, HS, HW, (design_features _ df1 df2 Hf).
    destruct df1, df2; try discriminate; reflexivity.
  - intros model. unfold apply_predictions. rewrite !map_map. cbn [PredictedDemand].
    revert df2 Hf Hy. induction df1 as [| r1 t1 IH]; intros [| r2 t2] Hf Hy;
      cbn [map] in *; try discriminate; [reflexivity |].
    apply cons_eq in Hf as [Hr Ht]. apply cons_eq in Hy as [_ Hy].
    unfold predict at 1 3. rewrite (transform_features _ r1 r2 Hr), (IH t2 Ht Hy).
    reflexivity.
Qed.

Lemma demand_model_reads_features_witness :
  map (fun p : Predicted => PredictedDemand p)
      (apply_predictions [mkLoaded (sample_record "Milk" "Dairy" "S01" 100 50 20000) 3]
                         sample_model) =
  map (fun p : Predicted => PredictedDemand p)
      (apply_predictions [mkLoaded (sample_record "Kefir" "Dairy" "S01" 7 50 20009) 12]
                         sample_model).
Proof.
  exact (proj2 (demand_model_reads_features constant_design_solver
                  [mkLoaded (sample_record "Milk" "Dairy" "S01" 100 50 20000) 3]
                  [mkLoaded (sample_record "Kefir" "Dairy" "S01" 7 50 20009) 12]
                  eq_refl eq_refl) sample_model).
Defined.
